(** * Video progress tracker: the progress store service and the playback tracker

    A shallow embedding of the server handlers (validateCheckpoints,
    validateQuizzes, mergeProgress and the GET / POST / DELETE handlers of
    /api/videos/:videoId/progress) and of the player component's timeupdate
    handler (VideoComponent.jsx), with the properties of the progress state
    model stated over them.

    Numbers are IEEE binary64 doubles, as in JavaScript: they are the kernel's
    primitive floats, so every concrete evaluation below is the one the
    program performs.  Strings are held in UTF-8.  The database table video_progress is a finite map keyed
    by (video_id, user_id); NOW() is a parameter of the save handler. *)

From Stdlib Require Import ZArith Lia Ascii Sorted.
From Stdlib Require Uint63.
From Stdlib Require Import PrimFloat FloatOps SpecFloat.
From stdpp Require Import base option list strings pretty gmap.

Set Default Proof Using "Type".
Set Warnings "-register-all,-inexact-float,-clear-no-such-hyp".
Local Open Scope string_scope.

(** ** JavaScript values and the built-ins the source relies on *)

Module JS.

(** A parsed JSON value, as [express.json()] hands it to a handler.  An object
    carries its entries in the order [Object.entries] lists them (own keys,
    one entry per key).  A field that is absent from the body ([undefined]) is
    [None] at type [option value]. *)
Inductive value : Type :=
  | JNull
  | JBool (b : bool)
  | JNum (x : float)
  | JStr (s : string)
  | JArr (xs : list value)
  | JObj (es : list (string * value)).

(** [0], [-0] and [NaN] are the falsy numbers. *)
Definition falsyNumber (x : float) : bool :=
  PrimFloat.eqb x 0%float || PrimFloat.is_nan x.

(** ToBoolean. *)
Definition truthy (v : value) : bool :=
  match v with
  | JNull => false
  | JBool b => b
  | JNum x => negb (falsyNumber x)
  | JStr s => negb (String.eqb s "")
  | JArr _ | JObj _ => true
  end.

(** [typeof v === 'object'] (which [null] and arrays satisfy). *)
Definition typeofObject (v : value) : bool :=
  match v with
  | JNull | JArr _ | JObj _ => true
  | _ => false
  end.

(** [typeof v === 'boolean']. *)
Definition typeofBoolean (v : value) : bool :=
  match v with
  | JBool _ => true
  | _ => false
  end.

(** *** Strings

    A string is held as the UTF-8 encoding of its characters, as it arrives
    in the JSON body (well formed: the body parser replaces what is not).
    JavaScript counts a string in UTF-16 code units: one for a character of
    one, two or three bytes, two (a surrogate pair) for a character of four. *)

Definition byte (c : ascii) : N := N_of_ascii c.

(** The three-byte sequence of the code unit [u]. *)
Definition threeBytes (u : N) : string :=
  String (ascii_of_N (224 + N.shiftr u 12))
    (String (ascii_of_N (128 + N.land (N.shiftr u 6) 63))
       (String (ascii_of_N (128 + N.land u 63)) EmptyString)).

(** The code units of a string, each as the string that holds it alone. *)
Fixpoint codeUnits (l : list ascii) : list string :=
  match l with
  | [] => []
  | a :: r =>
      if (byte a <? 192)%N then String a EmptyString :: codeUnits r
      else if (byte a <? 224)%N then
        match r with
        | b :: r2 => String a (String b EmptyString) :: codeUnits r2
        | [] => [String a EmptyString]
        end
      else if (byte a <? 240)%N then
        match r with
        | b :: c :: r3 =>
            String a (String b (String c EmptyString)) :: codeUnits r3
        | _ => [String.string_of_list_ascii l]
        end
      else
        match r with
        | b :: c :: d :: r4 =>
            let v := (N.land (byte a) 7 * 262144 + N.land (byte b) 63 * 4096
                      + N.land (byte c) 63 * 64 + N.land (byte d) 63 - 65536)%N in
            threeBytes (55296 + N.shiftr v 10)
              :: threeBytes (56320 + N.land v 1023) :: codeUnits r4
        | _ => [String.string_of_list_ascii l]
        end
  end.

(** [Object.entries v] for a truthy [v]: the entries of an object, the
    index/element pairs of an array, the index/code-unit pairs of a string,
    and nothing for a number or a boolean. *)
Definition entries (v : value) : list (string * value) :=
  match v with
  | JObj es => es
  | JArr xs => imap (fun i x => (pretty i, x)) xs
  | JStr s => imap (fun i u => (pretty i, JStr u))
                   (codeUnits (String.list_ascii_of_string s))
  | _ => []
  end.

(** *** [Number(key)]: the StringNumericLiteral grammar

    [Number] applied to a string trims white space (StrWhiteSpaceChar: TAB,
    LF, VT, FF, CR, the space separators of Unicode, U+2028, U+2029 and
    U+FEFF), reads the empty string as 0, and otherwise accepts a signed
    decimal literal (digits with an optional fraction and exponent, or
    [Infinity]) or an unsigned binary, octal or hexadecimal integer literal;
    everything else is [NaN]. *)

(** TAB, LF, VT, FF, CR, SP. *)
Definition whiteSpace1 (a : N) : bool :=
  ((a =? 9) || (a =? 10) || (a =? 11) || (a =? 12) || (a =? 13) || (a =? 32))%N.

(** U+00A0. *)
Definition whiteSpace2 (a b : N) : bool := ((a =? 194) && (b =? 160))%N.

(** U+1680, U+2000 to U+200A, U+2028, U+2029, U+202F, U+205F, U+3000, U+FEFF. *)
Definition whiteSpace3 (a b c : N) : bool :=
  (((a =? 225) && (b =? 154) && (c =? 128))
   || ((a =? 226) && (b =? 128) && (128 <=? c) && (c <=? 138))
   || ((a =? 226) && (b =? 128) && ((c =? 168) || (c =? 169) || (c =? 175)))
   || ((a =? 226) && (b =? 129) && (c =? 159))
   || ((a =? 227) && (b =? 128) && (c =? 128))
   || ((a =? 239) && (b =? 187) && (c =? 191)))%N.

(** The string without the white space it starts with. *)
Fixpoint dropLeadingWhiteSpace (l : list ascii) : list ascii :=
  match l with
  | [] => []
  | a :: r =>
      if whiteSpace1 (byte a) then dropLeadingWhiteSpace r
      else
        match r with
        | [] => l
        | b :: r2 =>
            if whiteSpace2 (byte a) (byte b) then dropLeadingWhiteSpace r2
            else
              match r2 with
              | [] => l
              | c :: r3 =>
                  if whiteSpace3 (byte a) (byte b) (byte c)
                  then dropLeadingWhiteSpace r3
                  else l
              end
        end
  end.

(** The same from the end, on the reversed string. *)
Fixpoint dropTrailingWhiteSpace (l : list ascii) : list ascii :=
  match l with
  | [] => []
  | a :: r =>
      if whiteSpace1 (byte a) then dropTrailingWhiteSpace r
      else
        match r with
        | [] => l
        | b :: r2 =>
            if whiteSpace2 (byte b) (byte a) then dropTrailingWhiteSpace r2
            else
              match r2 with
              | [] => l
              | c :: r3 =>
                  if whiteSpace3 (byte c) (byte b) (byte a)
                  then dropTrailingWhiteSpace r3
                  else l
              end
        end
  end.

Definition isDecimalDigit (c : ascii) : bool :=
  let n := nat_of_ascii c in (48 <=? n)%nat && (n <=? 57)%nat.

Definition isHexDigit (c : ascii) : bool :=
  let n := nat_of_ascii c in
  isDecimalDigit c || ((65 <=? n)%nat && (n <=? 70)%nat) || ((97 <=? n)%nat && (n <=? 102)%nat).

Definition isOctalDigit (c : ascii) : bool :=
  let n := nat_of_ascii c in (48 <=? n)%nat && (n <=? 55)%nat.

Definition isBinaryDigit (c : ascii) : bool :=
  let n := nat_of_ascii c in (n =? 48)%nat || (n =? 49)%nat.

Fixpoint takeWhile {A} (p : A -> bool) (l : list A) : list A :=
  match l with
  | x :: l' => if p x then x :: takeWhile p l' else []
  | [] => []
  end.

Fixpoint dropWhile {A} (p : A -> bool) (l : list A) : list A :=
  match l with
  | x :: l' => if p x then dropWhile p l' else l
  | [] => []
  end.

Definition trim (l : list ascii) : list ascii :=
  rev (dropTrailingWhiteSpace (rev (dropLeadingWhiteSpace l))).

(** A non-empty run of digits of the given class, and nothing else. *)
Definition allDigits (p : ascii -> bool) (l : list ascii) : bool :=
  negb (Nat.eqb (length l) 0) && forallb p l.

Definition isChar (c : ascii) (a b : string) : bool :=
  String.eqb (String c EmptyString) a || String.eqb (String c EmptyString) b.

Definition stripSign (l : list ascii) : list ascii :=
  match l with
  | c :: l' => if isChar c "+" "-" then l' else l
  | [] => []
  end.

(** ExponentPart, optional, up to the end of the literal. *)
Definition exponentOpt (l : list ascii) : bool :=
  match l with
  | [] => true
  | c :: l' => isChar c "e" "E" && allDigits isDecimalDigit (stripSign l')
  end.

Definition strUnsignedDecimalLiteral (l : list ascii) : bool :=
  if String.eqb (String.string_of_list_ascii l) "Infinity" then true
  else
    let int := takeWhile isDecimalDigit l in
    match dropWhile isDecimalDigit l with
    | c :: r =>
        if isChar c "." "." then
          let frac := takeWhile isDecimalDigit r in
          negb (Nat.eqb (length int + length frac) 0)
          && exponentOpt (dropWhile isDecimalDigit r)
        else negb (Nat.eqb (length int) 0) && exponentOpt (c :: r)
    | [] => negb (Nat.eqb (length int) 0)
    end.

Definition nonDecimalIntegerLiteral (l : list ascii) : bool :=
  match l with
  | z :: p :: ds =>
      isChar z "0" "0"
      && ((isChar p "x" "X" && allDigits isHexDigit ds)
          || (isChar p "o" "O" && allDigits isOctalDigit ds)
          || (isChar p "b" "B" && allDigits isBinaryDigit ds))
  | _ => false
  end.

(** [isNaN(Number(key))] for a string [key]. *)
Definition isNaN_Number (key : string) : bool :=
  let l := trim (String.list_ascii_of_string key) in
  match l with
  | [] => false
  | _ => negb (nonDecimalIntegerLiteral l || strUnsignedDecimalLiteral (stripSign l))
  end.

(** *** Doubles read as exact numbers *)

(** The signed mantissa and the exponent of a finite non-zero double
    ([x = m * 2^e]); [None] for NaN and the infinities. *)
Definition finiteParts (x : float) : option (Z * Z) :=
  match Prim2SF x with
  | S754_zero _ => Some (0, 0)%Z
  | S754_finite s m e => Some (if s then Z.neg m else Z.pos m, e)
  | S754_infinity _ | S754_nan => None
  end.

(** [Math.floor x] as an integer, for a finite [x]. *)
Definition Math_floor (x : float) : option Z :=
  '(m, e) ← finiteParts x; Some (Z.shiftl m e).

(** [Math.ceil x] as an integer, for a finite [x]. *)
Definition Math_ceil (x : float) : option Z :=
  '(m, e) ← finiteParts x; Some (- Z.shiftl (- m) e)%Z.

(** [Math.round x] as an integer, for a finite [x]: the nearest integer, a
    tie going up ([floor (x + 1/2)], computed exactly). *)
Definition Math_round (x : float) : option Z :=
  '(m, e) ← finiteParts x;
  Some (if (0 <=? e)%Z then Z.shiftl m e
        else Z.shiftl (m + Z.shiftl 1 (- e - 1)) e).

(** The double of an array length or a count (exact: a JavaScript array has
    fewer than 2^32 elements). *)
Definition ofNat (n : nat) : float :=
  PrimFloat.of_uint63 (Uint63.of_Z (Z.of_nat n)).

End JS.

(** ** The progress store service (the express handlers) *)

Module Server.
Import JS.

(** A row of the table video_progress. *)
Record VideoProgress : Type := mkVideoProgress {
  video_id : string;
  user_id : string;
  checkpoints : list bool;
  quizzes : gmap string bool;
  updated_at : Z
}.

(** The request as [mergeProgress] receives it: the checkpoints have passed
    [validateCheckpoints]; the quizzes are whatever the body carried (absent
    is [None]), since [validateQuizzes] lets every non-object through. *)
Record ProgressRequest : Type := mkProgressRequest {
  incoming_checkpoints : list bool;
  incoming_quizzes : option value
}.

(** The JSON body of a POST, before validation. *)
Record Body : Type := mkBody {
  body_checkpoints : option value;
  body_quizzes : option value
}.

Record Merged : Type := mkMerged {
  merged_checkpoints : list bool;
  merged_quizzes : gmap string bool
}.

Definition validateCheckpoints (checkpoints : option value)
    (expectedLength : option nat) : bool :=
  match checkpoints with
  | Some (JArr xs) =>
      match expectedLength with
      | Some (S n) => if negb (Nat.eqb (length xs) (S n)) then false
                      else forallb typeofBoolean xs
      | _ => forallb typeofBoolean xs
      end
  | _ => false
  end.

Definition validateQuizzes (quizzes : option value) : bool :=
  match quizzes with
  | None => true
  | Some q =>
      if negb (truthy q) || negb (typeofObject q) then true
      else forallb (fun '(key, v) => negb (isNaN_Number key) && typeofBoolean v)
                   (entries q)
  end.

(** The typed reading of a body's checkpoints once [validateCheckpoints] has
    accepted them. *)
Definition asBooleans (checkpoints : option value) : list bool :=
  match checkpoints with
  | Some (JArr xs) => truthy <$> xs
  | _ => []
  end.

(** The properties a plain object inherits from [Object.prototype]; a read
    [o[key]] of a key that is not an own property finds them, and each is
    truthy. *)
Definition objectPrototypeKeys : list string :=
  [ "constructor"; "__proto__"; "hasOwnProperty"; "isPrototypeOf";
    "propertyIsEnumerable"; "toLocaleString"; "toString"; "valueOf";
    "__defineGetter__"; "__defineSetter__"; "__lookupGetter__";
    "__lookupSetter__" ].

(** The truthiness of [o[key]] for the plain object [o]. *)
Definition readTruthy (o : gmap string bool) (key : string) : bool :=
  match o !! key with
  | Some b => b
  | None => bool_decide (key ∈ objectPrototypeKeys)
  end.

(** One round of the [forEach] of [mergeProgress]. *)
Definition mergeQuiz (mergedQuizzes : gmap string bool) (e : string * value)
    : gmap string bool :=
  if truthy e.2 && negb (readTruthy mergedQuizzes e.1)
  then <[e.1 := true]> mergedQuizzes
  else mergedQuizzes.

Definition mergeProgress (existing : option VideoProgress)
    (incoming : ProgressRequest) : Merged :=
  let existingCheckpoints := from_option checkpoints [] existing in
  let existingQuizzes := from_option quizzes ∅ existing in
  let mergedCheckpoints :=
    imap (fun index newValue =>
            let oldValue := default false (existingCheckpoints !! index) in
            oldValue || newValue)
         (incoming_checkpoints incoming) in
  let mergedQuizzes :=
    match incoming_quizzes incoming with
    | Some q => if truthy q then foldl mergeQuiz existingQuizzes (entries q)
                else existingQuizzes
    | None => existingQuizzes
    end in
  {| merged_checkpoints := mergedCheckpoints; merged_quizzes := mergedQuizzes |}.

(** [existing.checkpoints.some((oldValue, index) => oldValue && !checkpoints[index])] *)
Definition hasRegression (existingCheckpoints checkpoints : list bool) : bool :=
  existsb (fun b => b)
    (imap (fun index oldValue =>
             oldValue && negb (default false (checkpoints !! index)))
          existingCheckpoints).

(** The 400 responses of the handlers. *)
Inductive InvalidReason : Type :=
  | VideoIdRequired
  | InvalidCheckpointsFormat
  | InvalidQuizzesFormat.

Inductive failure : Type :=
  | InvalidInput (reason : InvalidReason)
  | RegressionRejected.

Definition errorMessage (f : failure) : string :=
  match f with
  | InvalidInput VideoIdRequired => "Video ID is required"
  | InvalidInput InvalidCheckpointsFormat => "Invalid checkpoints format"
  | InvalidInput InvalidQuizzesFormat => "Invalid quizzes format"
  | RegressionRejected => "Cannot uncomplete previously completed checkpoints"
  end.

Inductive outcome (A : Type) : Type :=
  | Success (a : A)
  | Failure (f : failure).
Arguments Success {A} a.
Arguments Failure {A} f.

(** The stats object of a response; [completion_rate] is [None] when
    [Math.round] yields no finite number. *)
Record Stats : Type := mkStats {
  total_checkpoints : nat;
  completed_checkpoints : nat;
  completion_rate : option Z;
  is_completed : bool
}.

(** "Calculate completion statistics". *)
Definition completionStats (cps : list bool) : Stats :=
  let totalCheckpoints := length cps in
  let completedCheckpoints := length (List.filter (fun b => b) cps) in
  let completionRate :=
    if (0 <? totalCheckpoints)%nat
    then (ofNat completedCheckpoints / ofNat totalCheckpoints)%float
    else 0%float in
  let isCompleted := (0.8 <=? completionRate)%float in
  {| total_checkpoints := totalCheckpoints;
     completed_checkpoints := completedCheckpoints;
     completion_rate := Math_round (completionRate * 100)%float;
     is_completed := isCompleted |}.

Record SaveResponse : Type := mkSaveResponse {
  progress : VideoProgress;
  stats : Stats
}.

Record ReadResponse : Type := mkReadResponse {
  read_checkpoints : list bool;
  read_quizzes : gmap string bool;
  read_updated_at : option Z;
  read_message : option string
}.

(** The table, keyed by its primary key (video_id, user_id). *)
Abbreviation store := (gmap (string * string) VideoProgress).

(** [req.query.userId as string || 'default_user'] *)
Definition userIdOf (query_userId : option string) : string :=
  match query_userId with
  | Some u => if String.eqb u "" then "default_user" else u
  | None => "default_user"
  end.

(** GET /api/videos/:videoId/progress *)
Definition getProgress (videoId : string) (query_userId : option string)
    (db : store) : outcome ReadResponse :=
  let userId := userIdOf query_userId in
  if String.eqb videoId "" then Failure (InvalidInput VideoIdRequired)
  else
    match db !! (videoId, userId) with
    | None =>
        Success {| read_checkpoints := []; read_quizzes := ∅;
                   read_updated_at := None;
                   read_message := Some "No progress found - starting fresh" |}
    | Some progress =>
        Success {| read_checkpoints := checkpoints progress;
                   read_quizzes := quizzes progress;
                   read_updated_at := Some (updated_at progress);
                   read_message := None |}
    end.

(** POST /api/videos/:videoId/progress, [now] being the value of NOW(). *)
Definition saveProgress (now : Z) (videoId : string)
    (query_userId : option string) (body : Body) (db : store)
    : outcome SaveResponse * store :=
  let userId := userIdOf query_userId in
  if String.eqb videoId "" then (Failure (InvalidInput VideoIdRequired), db)
  else if negb (validateCheckpoints (body_checkpoints body) None)
  then (Failure (InvalidInput InvalidCheckpointsFormat), db)
  else if negb (validateQuizzes (body_quizzes body))
  then (Failure (InvalidInput InvalidQuizzesFormat), db)
  else
    let checkpoints := asBooleans (body_checkpoints body) in
    let existing := db !! (videoId, userId) in
    let hasRegression :=
      match existing with
      | Some row => hasRegression (Server.checkpoints row) checkpoints
      | None => false
      end in
    if hasRegression then (Failure RegressionRejected, db)
    else
      let merged :=
        mergeProgress existing
          {| incoming_checkpoints := checkpoints;
             incoming_quizzes := body_quizzes body |} in
      let savedProgress :=
        {| video_id := videoId; user_id := userId;
           checkpoints := merged_checkpoints merged;
           quizzes := merged_quizzes merged;
           updated_at := now |} in
      (Success {| progress := savedProgress;
                  stats := completionStats (merged_checkpoints merged) |},
       <[(videoId, userId) := savedProgress]> db).

(** DELETE /api/videos/:videoId/progress *)
Definition deleteProgress (videoId : string) (query_userId : option string)
    (db : store) : outcome unit * store :=
  let userId := userIdOf query_userId in
  (Success tt, delete (videoId, userId) db).

(** GET /api/users/:userId/progress (the dashboard list) *)

(** An element of the list [progress] of the response. *)
Record ProgressEntry : Type := mkProgressEntry {
  entry_video_id : string;
  entry_checkpoints : list bool;
  entry_quizzes : gmap string bool;
  entry_updated_at : Z;
  entry_stats : Stats
}.

(** What [SELECT * FROM video_progress WHERE user_id = $1 ORDER BY updated_at
    DESC] may answer on the table [db]: the rows of the user, each once, a
    row never after one that was updated earlier (the order of rows with the
    same timestamp is the database's choice). *)
Definition selectByUser (userId : string) (db : store)
    (rows : list VideoProgress) : Prop :=
  rows ≡ₚ (snd <$> filter (fun kv => kv.1.2 = userId) (map_to_list db))
  /\ StronglySorted (fun r1 r2 => (updated_at r2 <= updated_at r1)%Z) rows.

(** [result.rows.map(row => ...)] *)
Definition progressList (rows : list VideoProgress) : list ProgressEntry :=
  (fun row =>
     {| entry_video_id := video_id row;
        entry_checkpoints := checkpoints row;
        entry_quizzes := quizzes row;
        entry_updated_at := updated_at row;
        entry_stats := completionStats (checkpoints row) |}) <$> rows.

(** The handler: the query is made for [userId || 'default_user']. *)
Definition getUserProgress (userId : string) (db : store)
    (response : list ProgressEntry) : Prop :=
  exists rows, selectByUser (userIdOf (Some userId)) db rows
               /\ response = progressList rows.

End Server.

(** ** The playback tracker (VideoComponent.jsx)

    The component keeps [checkpoints] and [lastSent] as React state, and
    [prevTime] and [accum] as variables of the effect that subscribes
    [onTimeUpdate]; that effect depends on [checkpoints], so it runs again,
    with [prevTime = 0] and [accum] all zero, whenever a new checkpoint array
    is set.  The callbacks are embedded as they are written, the calls and
    identifiers that do not resolve included: the ready callback reads the
    identifier [duratoin], and the listener calls [player.currentTIme()]. *)

Module Tracker.
Import JS.

Definition CHECKPOINT_INTERVAL : float := 10%float.
Definition COMPLETION_THRESHOLD : float := 0.8%float.
Definition PROGRESS_SAVE_DEBOUNCE : Z := 5000.

Record tracker : Type := mkTracker {
  checkpoints : list bool;
  lastSent : Z;
  prevTime : float;
  accum : list float
}.

(** What a transition does to the outside: a call of the [onComplete] prop
    (nothing happens there when the prop is missing), a POST of the vector. *)
Inductive effect : Type :=
  | OnComplete
  | SaveProgress (states : list bool).

(** What ends a callback before its last statement. *)
Inductive exception : Type :=
  | ReferenceError (identifier : string)
  | TypeError (callee : string)
  | RangeError (what : string).

Inductive completion (A : Type) : Type :=
  | Normal (a : A)
  | Throw (e : exception).
Arguments Normal {A} a.
Arguments Throw {A} e.

(** The statements after one that throws are not run. *)
#[export] Instance completion_bind : MBind completion :=
  fun A B (k : A -> completion B) (c : completion A) =>
    match c with
    | Normal a => k a
    | Throw e => Throw e
    end.

(** A video.js player when a callback runs: what its accessors yield. *)
Record player : Type := mkPlayer {
  player_currentTime : float;
  player_playbackRate : float;
  player_duration : float
}.

(** [player.name()] for the accessors the component names: a video.js player
    has [currentTime], [playbackRate] and [duration]; a name it does not have
    is [undefined], and calling it is a TypeError. *)
Definition callPlayer (p : player) (name : string) : completion float :=
  if String.eqb name "currentTime" then Normal (player_currentTime p)
  else if String.eqb name "playbackRate" then Normal (player_playbackRate p)
  else if String.eqb name "duration" then Normal (player_duration p)
  else Throw (TypeError name).

(** The numbers in scope in the ready callback: its constant [duration] and
    the constants of the module. *)
Definition readyScope (duration : float) : list (string * float) :=
  [ ("duration", duration);
    ("CHECKPOINT_INTERVAL", CHECKPOINT_INTERVAL);
    ("COMPLETION_THRESHOLD", COMPLETION_THRESHOLD);
    ("PROGRESS_SAVE_DEBOUNCE", 5000%float) ].

(** The value of an identifier; one that nothing declares is a
    ReferenceError. *)
Fixpoint identifier (scope : list (string * float)) (name : string)
    : completion float :=
  match scope with
  | [] => Throw (ReferenceError name)
  | (n, v) :: rest => if String.eqb n name then Normal v else identifier rest name
  end.

(** [Array(count)]: [count] must be an array length. *)
Definition arrayLength (count : option Z) : completion nat :=
  match count with
  | Some n => if (0 <=? n)%Z && (n <? 4294967296)%Z then Normal (Z.to_nat n)
              else Throw (RangeError "Invalid array length")
  | None => Throw (RangeError "Invalid array length")
  end.

(** The component as mounted: [useState([])], [useState(0)], and the
    subscribing effect run once. *)
Definition mounted : tracker :=
  {| checkpoints := []; lastSent := 0; prevTime := 0%float; accum := [] |}.

(** [setCheckpoints(updated)] with a new array, and the effect it re-runs. *)
Definition setCheckpoints (updated : list bool) (lastSent' : Z) : tracker :=
  {| checkpoints := updated;
     lastSent := lastSent';
     prevTime := 0%float;
     accum := replicate (length updated) 0%float |}.

(** The callback given to [playerRef.current.ready]. *)
Definition readyCallback (p : player) (s : tracker) : completion tracker :=
  duration ← callPlayer p "duration";
  numerator ← identifier (readyScope duration) "duratoin";
  count ← arrayLength (Math_ceil (numerator / CHECKPOINT_INTERVAL)%float);
  Normal (setCheckpoints (replicate count false) (lastSent s)).

(** [x || y] on numbers. *)
Definition orElse (x y : float) : float := if falsyNumber x then y else x.

(** [idx], when [idx >= 0 && idx < accum.length]. *)
Definition segmentIndex (currentTime : float) (len : nat) : option nat :=
  idx ← Math_floor (currentTime / CHECKPOINT_INTERVAL)%float;
  if (0 <=? idx)%Z && (idx <? Z.of_nat len)%Z then Some (Z.to_nat idx) else None.

(** [cleared / updated.length >= COMPLETION_THRESHOLD] *)
Definition thresholdReached (updated : list bool) : bool :=
  let cleared := length (List.filter (fun b => b) updated) in
  (COMPLETION_THRESHOLD <=? ofNat cleared / ofNat (length updated))%float.

(** The timeupdate listener, [now] being [Date.now()]. *)
Definition onTimeUpdate (now : Z) (p : player) (s : tracker)
    : completion (tracker * list effect) :=
  currentTime ← callPlayer p "currentTIme";
  rate ← callPlayer p "playbackRate";
  let playbackRate := orElse rate 1 in
  let delta := ((currentTime - prevTime s) * playbackRate)%float in
  match segmentIndex currentTime (length (accum s)) with
  | None =>
      Normal ({| checkpoints := checkpoints s; lastSent := lastSent s;
                 prevTime := currentTime; accum := accum s |}, [])
  | Some idx =>
      let a := (orElse (default 0%float (accum s !! idx)) 0 + delta)%float in
      let accum' := <[idx := a]> (accum s) in
      if (CHECKPOINT_INTERVAL <=? a)%float
         && negb (default false (checkpoints s !! idx))
      then
        let updated := <[idx := true]> (checkpoints s) in
        let complete := thresholdReached updated in
        let save := (PROGRESS_SAVE_DEBOUNCE <? now - lastSent s)%Z in
        Normal (setCheckpoints updated (if save then now else lastSent s),
                ((if complete then [OnComplete] else [])
                 ++ (if save then [SaveProgress updated] else []))%list)
      else
        Normal ({| checkpoints := checkpoints s; lastSent := lastSent s;
                   prevTime := currentTime; accum := accum' |}, [])
  end.

(** What the player delivers to the component. *)
Inductive event : Type :=
  | Ready (p : player)
  | TimeUpdate (now : Z) (p : player).

(** The component on one event.  A callback that throws has changed nothing:
    every call and identifier that can fail comes before the callback's
    first assignment and before any [setCheckpoints]. *)
Definition handleEvent (e : event) (s : tracker) : tracker * list effect :=
  match e with
  | Ready p =>
      match readyCallback p s with
      | Normal s' => (s', [])
      | Throw _ => (s, [])
      end
  | TimeUpdate now p =>
      match onTimeUpdate now p s with
      | Normal r => r
      | Throw _ => (s, [])
      end
  end.

(** A session: the component from its mounting, through the events in
    order, with the effects it has on the outside. *)
Fixpoint play (events : list event) (s : tracker) : tracker * list effect :=
  match events with
  | [] => (s, [])
  | e :: rest =>
      let '(s1, out1) := handleEvent e s in
      let '(s2, out2) := play rest s1 in
      (s2, (out1 ++ out2)%list)
  end.

Definition session (events : list event) : tracker * list effect :=
  play events mounted.

Definition completions (out : list effect) : nat :=
  length (List.filter (fun e => match e with OnComplete => true | _ => false end) out).

End Tracker.

(** ** A playback session against the service

    The component's [saveProgress(states)] POSTs [{checkpoints: states}] to
    /api/videos/:videoId/progress, with no userId and no quizzes; the requests
    of a session are handled in the order they were sent. *)

Module Session.
Import JS.

(** The request [saveProgress(states)] makes, handled at the time [now]. *)
Definition postProgress (now : Z) (videoId : string) (states : list bool)
    (db : gmap (string * string) Server.VideoProgress)
    : Server.outcome Server.SaveResponse * gmap (string * string) Server.VideoProgress :=
  Server.saveProgress now videoId None
    {| Server.body_checkpoints := Some (JArr (JBool <$> states));
       Server.body_quizzes := None |} db.

(** The vectors a list of effects posts, in order. *)
Definition posted (out : list Tracker.effect) : list (list bool) :=
  omap (fun e => match e with
                 | Tracker.SaveProgress states => Some states
                 | Tracker.OnComplete => None
                 end) out.

(** The service handling the posts of a session, the k-th at the k-th time. *)
Fixpoint deliver (videoId : string) (posts : list (Z * list bool))
    (db : gmap (string * string) Server.VideoProgress)
    : list (Server.outcome Server.SaveResponse)
      * gmap (string * string) Server.VideoProgress :=
  match posts with
  | [] => ([], db)
  | (now, states) :: rest =>
      let '(answer, db1) := postProgress now videoId states db in
      let '(answers, db2) := deliver videoId rest db1 in
      (answer :: answers, db2)
  end.

End Session.

(** ** Doubles against exact arithmetic *)

Module Doubles.
Import JS.

(** The numbers of the stats object, from the two counts. *)
Definition rateOf (completed total : Z) : float :=
  if (0 <? total)%Z
  then (PrimFloat.of_uint63 (Uint63.of_Z completed)
        / PrimFloat.of_uint63 (Uint63.of_Z total))%float
  else 0%float.

(** The doubles agree with exact arithmetic on the vectors of up to
    [checkedLength] entries: the completion test is [completed / total >= 4/5]
    and the rate is an integer nearest to [100 * completed / total]. *)
Definition checkedLength : nat := 500.

Definition exactStats (completed total : Z) : bool :=
  Bool.eqb (0.8 <=? rateOf completed total)%float
           ((0 <? total) && (4 * total <=? 5 * completed))%Z
  && match Math_round (rateOf completed total * 100)%float with
     | Some r =>
         ((2 * r * total - total <=? 200 * completed)
          && (200 * completed <=? 2 * r * total + total))%Z
     | None => false
     end.

(** [p] holds of the [n] integers from [z] on. *)
Fixpoint allFrom (p : Z -> bool) (n : nat) (z : Z) : bool :=
  match n with
  | O => true
  | S n' => p z && allFrom p n' (z + 1)%Z
  end.

Lemma allFrom_spec p n z k :
  allFrom p n z = true -> (z <= k < z + Z.of_nat n)%Z -> p k = true.
Proof.
  revert z. induction n as [|n IH]; intros z Hall Hk; [lia|].
  cbn [allFrom] in Hall. apply andb_true_iff in Hall as [Hz Hrest].
  destruct (decide (k = z)) as [->|Hne]; [done|].
  apply (IH (z + 1)%Z); [done|lia].
Qed.

Lemma exactStats_checked :
  allFrom (fun total =>
             allFrom (fun completed => exactStats completed total)
                     (Z.to_nat (total + 1)) 0%Z)
          (S checkedLength) 0%Z = true.
Proof. vm_compute. reflexivity. Qed.

Lemma exactStats_upto completed total :
  (completed <= total)%nat -> (total <= checkedLength)%nat ->
  exactStats (Z.of_nat completed) (Z.of_nat total) = true.
Proof.
  intros Hc Ht.
  pose proof (allFrom_spec _ _ _ (Z.of_nat total) exactStats_checked) as H.
  cbv beta in H.
  apply (allFrom_spec _ _ _ (Z.of_nat completed) (H ltac:(lia))). lia.
Qed.

(** For up to [checkedLength] items, [completed / total >= 0.8] in doubles
    is [5 * completed >= 4 * total]. *)
Lemma ratio_test_exact completed total :
  (completed <= total)%nat -> (0 < total)%nat -> (total <= checkedLength)%nat ->
  (0.8 <=? ofNat completed / ofNat total)%float
  = (4 * total <=? 5 * completed)%nat.
Proof.
  intros Hc Hpos Ht. pose proof (exactStats_upto completed total Hc Ht) as Hex.
  unfold exactStats in Hex. apply andb_true_iff in Hex as [Hb _].
  apply Bool.eqb_prop in Hb. unfold rateOf in Hb.
  destruct (Z.ltb_spec 0 (Z.of_nat total)) as [_|?]; [|lia].
  unfold ofNat. rewrite Hb. cbn [andb].
  destruct (Z.leb_spec (4 * Z.of_nat total) (5 * Z.of_nat completed)),
    (Nat.leb_spec (4 * total) (5 * completed)); done || lia.
Qed.

End Doubles.

(** ** Properties of the progress store service *)

Module ServerProofs.
Import JS Server Doubles.

(** The body of a POST that carries the boolean vector [cps]. *)
Definition bodyOf (cps : list bool) (quizzes : option value) : Body :=
  {| body_checkpoints := Some (JArr (JBool <$> cps)); body_quizzes := quizzes |}.

Definition keyOf (videoId : string) (query_userId : option string) : string * string :=
  (videoId, userIdOf query_userId).

(** *** Validation of the checkpoints *)

Lemma forallb_typeofBoolean xs :
  forallb typeofBoolean xs = true -> xs = JBool <$> (truthy <$> xs).
Proof.
  induction xs as [|x xs IH]; [done|].
  intros H. simpl in H. apply andb_true_iff in H as [Hx Hxs].
  destruct x; try discriminate. rewrite !fmap_cons. simpl. f_equal. by apply IH.
Qed.

Lemma validateCheckpoints_typed c :
  validateCheckpoints c None = true ->
  c = Some (JArr (JBool <$> asBooleans c)).
Proof.
  destruct c as [[| | | |xs|]|]; simpl; try discriminate.
  intros H. do 2 f_equal. by apply forallb_typeofBoolean.
Qed.

Lemma validateCheckpoints_bodyOf cps :
  validateCheckpoints (Some (JArr (JBool <$> cps))) None = true.
Proof. simpl. induction cps as [|b cps IH]; simpl; done. Qed.

Lemma asBooleans_bodyOf cps : asBooleans (Some (JArr (JBool <$> cps))) = cps.
Proof.
  unfold asBooleans. induction cps as [|b cps IH]; [done|].
  by rewrite !fmap_cons, IH.
Qed.

(** *** The regression check *)

Lemma hasRegression_true ex cps i :
  ex !! i = Some true -> default false (cps !! i) = false ->
  hasRegression ex cps = true.
Proof.
  intros Hex Hin. unfold hasRegression. apply existsb_exists.
  exists true. split; [|done].
  apply list_elem_of_In, elem_of_lookup_imap.
  exists i, true. split; [|done]. by rewrite Hin.
Qed.

Lemma hasRegression_false ex cps :
  hasRegression ex cps = false <->
  forall i, ex !! i = Some true -> cps !! i = Some true.
Proof.
  split.
  - intros Hno i Hex.
    destruct (cps !! i) as [[|]|] eqn:Hin; [done| |];
      rewrite (hasRegression_true ex cps i) in Hno; try done;
      by rewrite Hin.
  - intros Hall. destruct (hasRegression ex cps) eqn:Hreg; [|done].
    unfold hasRegression in Hreg. apply existsb_exists in Hreg as (b & Hb & ->).
    apply list_elem_of_In, elem_of_lookup_imap in Hb as (i & old & Heq & Hex).
    destruct old; [|done]. rewrite (Hall i Hex) in Heq. done.
Qed.

(** *** The merge of the checkpoints *)

Lemma merged_checkpoints_length existing incoming :
  length (merged_checkpoints (mergeProgress existing incoming))
  = length (incoming_checkpoints incoming).
Proof. unfold mergeProgress; simpl. apply length_imap. Qed.

Lemma merged_checkpoints_lookup existing incoming i :
  merged_checkpoints (mergeProgress existing incoming) !! i
  = (fun newValue =>
       default false (from_option checkpoints [] existing !! i) || newValue)
    <$> incoming_checkpoints incoming !! i.
Proof. unfold mergeProgress; simpl. by rewrite list_lookup_imap. Qed.

(** What a save does once the request has passed validation. *)
Lemma saveProgress_valid now videoId q body db :
  videoId <> "" ->
  validateCheckpoints (body_checkpoints body) None = true ->
  validateQuizzes (body_quizzes body) = true ->
  saveProgress now videoId q body db =
    let cps := asBooleans (body_checkpoints body) in
    let existing := db !! keyOf videoId q in
    if from_option (fun row => hasRegression (checkpoints row) cps) false existing
    then (Failure RegressionRejected, db)
    else
      let merged := mergeProgress existing (mkProgressRequest cps (body_quizzes body)) in
      let saved := mkVideoProgress videoId (userIdOf q)
                     (merged_checkpoints merged) (merged_quizzes merged) now in
      (Success (mkSaveResponse saved (completionStats (merged_checkpoints merged))),
       <[keyOf videoId q := saved]> db).
Proof.
  intros Hv Hc Hq. unfold saveProgress, keyOf.
  destruct (String.eqb_spec videoId "") as [->|_]; [done|].
  rewrite Hc, Hq. simpl.
  by destruct (db !! (videoId, userIdOf q)).
Qed.

(** A save that fails leaves the table as it was. *)
Lemma saveProgress_failure_untouched now videoId q body db f db' :
  saveProgress now videoId q body db = (Failure f, db') -> db' = db.
Proof.
  unfold saveProgress.
  repeat match goal with
         | |- context [if ?b then _ else _] => destruct b
         end; congruence.
Qed.

(** *** C1: the merged checkpoint vector *)

(** C1, as amended: for a stored record [existing] and a valid incoming
    vector that passes the regression check, the save succeeds and the vector
    it stores has the length of the incoming vector (not the larger of the two
    lengths); read with absent entries as false, it is the pointwise OR of the
    stored and the incoming vector at every index, and every checkpoint that
    was true in [existing] is true in it. *)
Theorem C1_merged_checkpoints now videoId q cps qz db existing :
  videoId <> "" ->
  validateQuizzes qz = true ->
  db !! keyOf videoId q = Some existing ->
  hasRegression (checkpoints existing) cps = false ->
  exists resp,
    saveProgress now videoId q (bodyOf cps qz) db
      = (Success resp, <[keyOf videoId q := progress resp]> db)
    /\ length (checkpoints (progress resp)) = length cps
    /\ (forall i, default false (checkpoints (progress resp) !! i)
                  = default false (checkpoints existing !! i)
                    || default false (cps !! i))
    /\ (forall i, checkpoints existing !! i = Some true ->
                  checkpoints (progress resp) !! i = Some true).
Proof.
  intros Hv Hq Hdb Hreg.
  rewrite saveProgress_valid by (done || apply validateCheckpoints_bodyOf).
  cbn [body_checkpoints body_quizzes bodyOf].
  rewrite asBooleans_bodyOf, Hdb. cbn [from_option]. rewrite Hreg.
  eexists (mkSaveResponse _ _). split; [reflexivity|]. cbn [progress checkpoints].
  pose proof (proj1 (hasRegression_false _ _) Hreg) as Hkeep.
  split; [apply merged_checkpoints_length|]. split.
  - intros i. rewrite merged_checkpoints_lookup. cbn [from_option incoming_checkpoints].
    destruct (cps !! i) as [b|] eqn:Hin; [done|]. simpl.
    destruct (checkpoints existing !! i) as [[|]|] eqn:Hex; [|done..].
    specialize (Hkeep i Hex). congruence.
  - intros i Hex. rewrite merged_checkpoints_lookup. cbn [from_option incoming_checkpoints].
    rewrite (Hkeep i Hex), Hex. done.
Qed.

Definition sampleRow (cps : list bool) : VideoProgress :=
  mkVideoProgress "v" "default_user" cps ∅ 0.

Definition sampleDb (cps : list bool) : store :=
  {[ ("v", "default_user") := sampleRow cps ]}.

Lemma C1_merged_checkpoints_witness :
  exists resp,
    saveProgress 1 "v" None (bodyOf [true] None) (sampleDb [true; false])
      = (Success resp, <[keyOf "v" None := progress resp]> (sampleDb [true; false]))
    /\ length (checkpoints (progress resp)) = length [true]
    /\ (forall i, default false (checkpoints (progress resp) !! i)
                  = default false (checkpoints (sampleRow [true; false]) !! i)
                    || default false ([true] !! i))
    /\ (forall i, checkpoints (sampleRow [true; false]) !! i = Some true ->
                  checkpoints (progress resp) !! i = Some true).
Proof.
  apply (C1_merged_checkpoints 1 "v" None [true] None
           (sampleDb [true; false]) (sampleRow [true; false]));
    [discriminate | reflexivity | reflexivity | reflexivity].
Defined.

(** The claim as stated fails: with [true; false] stored, the vector [true]
    passes the regression check and the save stores a vector of length 1,
    which is not the larger of the two lengths: the stored vector shrank. *)
Lemma C1_counterexample_stored_vector_shrinks :
  hasRegression [true; false] [true] = false
  /\ (exists resp,
        (saveProgress 1 "v" None (bodyOf [true] None) (sampleDb [true; false])).1
          = Success resp
        /\ checkpoints (progress resp) = [true]
        /\ length (checkpoints (progress resp))
           <> Nat.max (length [true; false]) (length [true])).
Proof.
  split; [reflexivity|]. eexists. split; [reflexivity|].
  split; [reflexivity|]. simpl. lia.
Qed.

(** *** C2: regression is rejected *)

(** C2: when some checkpoint that is true in the stored record is false in,
    or absent from, the incoming vector, the save fails and the table is left
    as it was; for a request that reaches the regression check (one that has
    passed the input validation) the failure is RegressionRejected. *)
Theorem C2_regression_rejected now videoId q body db existing i :
  db !! keyOf videoId q = Some existing ->
  checkpoints existing !! i = Some true ->
  default false (asBooleans (body_checkpoints body) !! i) = false ->
  (exists f, saveProgress now videoId q body db = (Failure f, db))
  /\ (videoId <> "" ->
      validateCheckpoints (body_checkpoints body) None = true ->
      validateQuizzes (body_quizzes body) = true ->
      saveProgress now videoId q body db = (Failure RegressionRejected, db)).
Proof.
  intros Hdb Hex Hin.
  assert (Hvalid : videoId <> "" ->
      validateCheckpoints (body_checkpoints body) None = true ->
      validateQuizzes (body_quizzes body) = true ->
      saveProgress now videoId q body db = (Failure RegressionRejected, db)).
  { intros Hv Hc Hq. rewrite saveProgress_valid by done.
    cbn zeta. rewrite Hdb. cbn [from_option].
    by rewrite (hasRegression_true _ _ i Hex Hin). }
  split; [|done].
  destruct (String.eqb_spec videoId "") as [->|Hv]; [by eexists|].
  destruct (validateCheckpoints (body_checkpoints body) None) eqn:Hc;
    [|unfold saveProgress; destruct (String.eqb_spec videoId ""); [done|];
      rewrite Hc; by eexists].
  destruct (validateQuizzes (body_quizzes body)) eqn:Hq;
    [|unfold saveProgress; destruct (String.eqb_spec videoId ""); [done|];
      rewrite Hc, Hq; by eexists].
  eexists. by apply Hvalid.
Qed.

Lemma C2_regression_rejected_witness :
  saveProgress 1 "v" None (bodyOf [false; true] None) (sampleDb [true; false])
  = (Failure RegressionRejected, sampleDb [true; false]).
Proof.
  apply (C2_regression_rejected 1 "v" None (bodyOf [false; true] None)
           (sampleDb [true; false]) (sampleRow [true; false]) 0);
    [reflexivity | reflexivity | reflexivity | discriminate
     | reflexivity | reflexivity].
Defined.

(** *** C3: the two-save scenario *)

(** C3, as amended: starting from no stored record, saving
    [true; false; false] succeeds and stores that vector; saving
    [false; true; false] next is rejected as a regression and leaves the
    stored vector as it was; saving [true; true; false] next instead succeeds
    and stores [true; true; false] with total 3, completed 2, completion
    rate 67 and isCompleted false. *)
Theorem C3_two_saves now1 now2 videoId q :
  videoId <> "" ->
  let first := saveProgress now1 videoId q (bodyOf [true; false; false] None) ∅ in
  (exists resp1, first.1 = Success resp1
                 /\ first.2 !! keyOf videoId q = Some (progress resp1)
                 /\ checkpoints (progress resp1) = [true; false; false])
  /\ saveProgress now2 videoId q (bodyOf [false; true; false] None) first.2
     = (Failure RegressionRejected, first.2)
  /\ (exists resp2,
        saveProgress now2 videoId q (bodyOf [true; true; false] None) first.2
          = (Success resp2, <[keyOf videoId q := progress resp2]> first.2)
        /\ checkpoints (progress resp2) = [true; true; false]
        /\ stats resp2 = mkStats 3 2 (Some 67%Z) false).
Proof.
  intros Hv first. subst first.
  rewrite (saveProgress_valid now1) by done.
  cbn zeta. rewrite lookup_empty. cbn [from_option fst snd].
  split; [eexists (mkSaveResponse _ _); split; [reflexivity|];
          split; [apply lookup_insert_eq|reflexivity]|].
  split.
  - rewrite saveProgress_valid by done. cbn zeta.
    rewrite lookup_insert_eq. reflexivity.
  - rewrite saveProgress_valid by done. cbn zeta.
    rewrite lookup_insert_eq. cbn [from_option checkpoints].
    eexists (mkSaveResponse _ _). split; [reflexivity|]. split; reflexivity.
Qed.

Lemma C3_two_saves_witness :
  let first := saveProgress 1 "v" None (bodyOf [true; false; false] None) ∅ in
  (exists resp1, first.1 = Success resp1
                 /\ first.2 !! keyOf "v" None = Some (progress resp1)
                 /\ checkpoints (progress resp1) = [true; false; false])
  /\ saveProgress 2 "v" None (bodyOf [false; true; false] None) first.2
     = (Failure RegressionRejected, first.2)
  /\ (exists resp2,
        saveProgress 2 "v" None (bodyOf [true; true; false] None) first.2
          = (Success resp2, <[keyOf "v" None := progress resp2]> first.2)
        /\ checkpoints (progress resp2) = [true; true; false]
        /\ stats resp2 = mkStats 3 2 (Some 67%Z) false).
Proof. apply (C3_two_saves 1 2 "v" None). discriminate. Defined.

(** The scenario as stated fails: the second save is rejected, and the stored
    vector stays [true; false; false]. *)
Lemma C3_counterexample_second_save_rejected :
  let first := saveProgress 1 "v" None (bodyOf [true; false; false] None) ∅ in
  let second := saveProgress 2 "v" None (bodyOf [false; true; false] None) first.2 in
  second.1 = Failure RegressionRejected
  /\ checkpoints <$> second.2 !! ("v", "default_user") = Some [true; false; false]
  /\ checkpoints <$> second.2 !! ("v", "default_user") <> Some [true; true; false].
Proof. repeat split; (reflexivity || discriminate). Qed.

(** *** C4: the statistics of a successful save *)

(** A successful save answers with the row it stored and the statistics of
    that row's checkpoints. *)
Lemma saveProgress_success now videoId q body db resp db' :
  saveProgress now videoId q body db = (Success resp, db') ->
  stats resp = completionStats (checkpoints (progress resp))
  /\ db' = <[keyOf videoId q := progress resp]> db
  /\ video_id (progress resp) = videoId
  /\ user_id (progress resp) = userIdOf q
  /\ updated_at (progress resp) = now.
Proof.
  unfold saveProgress.
  repeat match goal with
         | |- context [if ?b then _ else _] => destruct b
         end; try discriminate.
  intros [= <- <-]. done.
Qed.

Lemma saveProgress_success_row now videoId q body db resp db' :
  saveProgress now videoId q body db = (Success resp, db') ->
  let merged :=
    mergeProgress (db !! keyOf videoId q)
      (mkProgressRequest (asBooleans (body_checkpoints body)) (body_quizzes body)) in
  progress resp = mkVideoProgress videoId (userIdOf q)
                    (merged_checkpoints merged) (merged_quizzes merged) now.
Proof.
  unfold saveProgress.
  repeat match goal with
         | |- context [if ?b then _ else _] => destruct b
         end; try discriminate.
  intros [= <- <-]. done.
Qed.

Lemma completionStats_counts cps :
  completionStats cps =
    let total := length cps in
    let completed := count_occ Bool.bool_dec cps true in
    mkStats total completed
            (Math_round (rateOf (Z.of_nat completed) (Z.of_nat total) * 100)%float)
            (0.8 <=? rateOf (Z.of_nat completed) (Z.of_nat total))%float.
Proof.
  assert (H : length (List.filter (fun b => b) cps) = count_occ Bool.bool_dec cps true).
  { induction cps as [|[|] cps IH]; simpl; [done| |done]. by rewrite IH. }
  unfold completionStats, rateOf, ofNat. cbn zeta. rewrite H.
  by destruct (length cps).
Qed.

Lemma count_occ_le_length (cps : list bool) :
  (count_occ Bool.bool_dec cps true <= length cps)%nat.
Proof. induction cps as [|[|] cps IH]; simpl; lia. Qed.

(** C4, as amended: on every successful save, totalCheckpoints is the length
    of the stored vector and completedCheckpoints its number of true entries;
    with no checkpoint the rate is 0 and isCompleted false; otherwise the rate
    is the double [(completed / total) * 100] rounded by Math.round and
    isCompleted is decided by the raw ratio, [completed / total >= 0.8], not
    by the rounded percentage.  For vectors of up to 500 entries this is:
    isCompleted iff [5 * completed >= 4 * total] with [total > 0], and the
    rate is an integer nearest to [100 * completed / total]. *)
Theorem C4_completion_statistics now videoId q body db resp db' :
  saveProgress now videoId q body db = (Success resp, db') ->
  let merged := checkpoints (progress resp) in
  let total := length merged in
  let completed := count_occ Bool.bool_dec merged true in
  let ratio := (ofNat completed / ofNat total)%float in
  total_checkpoints (stats resp) = total
  /\ completed_checkpoints (stats resp) = completed
  /\ (total = 0%nat ->
      completion_rate (stats resp) = Some 0%Z /\ is_completed (stats resp) = false)
  /\ ((0 < total)%nat ->
      completion_rate (stats resp) = Math_round (ratio * 100)%float
      /\ is_completed (stats resp) = (0.8 <=? ratio)%float)
  /\ ((total <= checkedLength)%nat ->
      is_completed (stats resp)
        = ((0 <? total)%nat && (4 * total <=? 5 * completed)%nat)
      /\ exists r, completion_rate (stats resp) = Some r
                   /\ (2 * r * Z.of_nat total - Z.of_nat total
                         <= 200 * Z.of_nat completed
                         <= 2 * r * Z.of_nat total + Z.of_nat total)%Z).
Proof.
  intros Hsave merged total completed ratio.
  destruct (saveProgress_success _ _ _ _ _ _ _ Hsave) as (-> & _).
  rewrite completionStats_counts. fold merged. cbn zeta. fold total completed.
  cbn [total_checkpoints completed_checkpoints completion_rate is_completed].
  split; [done|]. split; [done|]. split; [|split].
  - intros ->. split; reflexivity.
  - intros Hpos. unfold rateOf, ratio, ofNat.
    destruct (Z.ltb_spec 0 (Z.of_nat total)) as [_|?]; [done|lia].
  - intros Hle.
    pose proof (exactStats_upto completed total (count_occ_le_length merged) Hle) as Hex.
    unfold exactStats in Hex. apply andb_true_iff in Hex as [Hb Hr].
    apply Bool.eqb_prop in Hb. split.
    + rewrite Hb. f_equal.
      * destruct (Z.ltb_spec 0 (Z.of_nat total)), (Nat.ltb_spec 0 total); done || lia.
      * destruct (Z.leb_spec (4 * Z.of_nat total) (5 * Z.of_nat completed)),
          (Nat.leb_spec (4 * total) (5 * completed)); done || lia.
    + destruct (Math_round _) as [r|]; [|done].
      exists r. split; [done|]. lia.
Qed.

Definition sampleResponse : SaveResponse :=
  mkSaveResponse (mkVideoProgress "v" "default_user" [true; true; false] ∅ 1)
                 (mkStats 3 2 (Some 67%Z) false).

Lemma C4_completion_statistics_witness :
  saveProgress 1 "v" None (bodyOf [true; true; false] None) ∅
    = (Success sampleResponse, <[keyOf "v" None := progress sampleResponse]> ∅)
  /\ total_checkpoints (stats sampleResponse) = 3%nat
  /\ completed_checkpoints (stats sampleResponse) = 2%nat
  /\ is_completed (stats sampleResponse) = ((0 <? 3)%nat && (4 * 3 <=? 5 * 2)%nat).
Proof.
  assert (Hsave : saveProgress 1 "v" None (bodyOf [true; true; false] None) ∅
    = (Success sampleResponse, <[keyOf "v" None := progress sampleResponse]> ∅))
    by (reflexivity).
  split; [exact Hsave|].
  destruct (C4_completion_statistics 1 "v" None (bodyOf [true; true; false] None) ∅
              sampleResponse _ Hsave) as (Ht & Hc & _ & _ & Hex).
  split; [exact Ht|]. split; [exact Hc|].
  apply Hex. apply Nat.leb_le. reflexivity.
Defined.

(** The claim as stated fails: with 35 of 44 checkpoints complete the rate
    is 80, so [completionRate / 100 >= 0.8] holds, and isCompleted is false. *)
Lemma C4_counterexample_rounded_rate_reaches_threshold :
  exists resp,
    (saveProgress 1 "v" None
       (bodyOf (replicate 35 true ++ replicate 9 false) None) ∅).1 = Success resp
    /\ total_checkpoints (stats resp) = 44%nat
    /\ completed_checkpoints (stats resp) = 35%nat
    /\ completion_rate (stats resp) = Some 80%Z
    /\ (0.8 <=? 80 / 100)%float = true
    /\ is_completed (stats resp) = false.
Proof.
  eexists (mkSaveResponse _ _). split; [reflexivity|].
  repeat split; reflexivity.
Qed.

(** Rounding in doubles: 23 of 40 is 57.5 percent exactly, and the rate the
    handler reports is 57, since [(23 / 40) * 100] falls just below 57.5. *)
Example completion_rate_at_a_tie :
  completion_rate (completionStats (replicate 23 true ++ replicate 17 false))
  = Some 57%Z.
Proof. vm_compute. reflexivity. Qed.

(** *** C7: validation of the quizzes *)

Lemma validateQuizzes_object es :
  validateQuizzes (Some (JObj es)) = false <->
  exists key v, (key, v) ∈ es /\ (isNaN_Number key = true \/ typeofBoolean v = false).
Proof.
  cbn [validateQuizzes truthy typeofObject negb orb entries].
  induction es as [|[k x] es IH]; cbn [forallb].
  - split; [done|]. intros (key & v & Hin & _). by apply elem_of_nil in Hin.
  - rewrite andb_false_iff, IH. split.
    + intros [Hbad|(key & v & Hin & Hbad)].
      * exists k, x. split; [left|].
        apply andb_false_iff in Hbad as [Hk|Hx]; [left|right; done].
        by destruct (isNaN_Number k).
      * exists key, v. split; [by right|done].
    + intros (key & v & Hin & Hbad).
      apply elem_of_cons in Hin as [[= -> ->]|Hin].
      * left. destruct Hbad as [->| ->]; [done|]. apply andb_false_r.
      * right. by exists key, v.
Qed.

(** C7, as amended: for a request with a video id and valid checkpoints, a
    quizzes object is rejected, with the failure InvalidInput "Invalid quizzes
    format" (distinct from the other two InvalidInput failures) and the table
    untouched, exactly when it has an entry whose key does not convert to a
    number ([Number(key)] is NaN; negative, fractional and empty keys do
    convert) or whose value is not a boolean; an absent quizzes field is
    valid and is treated as the empty map. *)
Theorem C7_quizzes_validation now videoId q cps db :
  videoId <> "" ->
  (forall es,
     saveProgress now videoId q (bodyOf cps (Some (JObj es))) db
       = (Failure (InvalidInput InvalidQuizzesFormat), db)
     <-> exists key v, (key, v) ∈ es
                       /\ (isNaN_Number key = true \/ typeofBoolean v = false))
  /\ validateQuizzes None = true
  /\ saveProgress now videoId q (bodyOf cps None) db
     = saveProgress now videoId q (bodyOf cps (Some (JObj []))) db
  /\ InvalidInput InvalidQuizzesFormat <> InvalidInput InvalidCheckpointsFormat
  /\ InvalidInput InvalidQuizzesFormat <> InvalidInput VideoIdRequired
  /\ InvalidInput InvalidQuizzesFormat <> RegressionRejected.
Proof.
  intros Hv. split; [|split; [done|split; [|done]]].
  - intros es. rewrite <- validateQuizzes_object.
    destruct (validateQuizzes (Some (JObj es))) eqn:Hq.
    + rewrite saveProgress_valid by (done || apply validateCheckpoints_bodyOf).
      cbn zeta.
      destruct (from_option _ false (db !! keyOf videoId q)); split; discriminate.
    + unfold saveProgress. destruct (String.eqb_spec videoId "") as [?|_]; [done|].
      cbn [body_checkpoints body_quizzes bodyOf].
      rewrite validateCheckpoints_bodyOf, Hq. done.
  - rewrite !saveProgress_valid by (done || apply validateCheckpoints_bodyOf).
    reflexivity.
Qed.

Lemma C7_quizzes_validation_witness :
  saveProgress 1 "v" None (bodyOf [true] (Some (JObj [("q1", JBool true)]))) ∅
  = (Failure (InvalidInput InvalidQuizzesFormat), ∅).
Proof.
  apply (proj1 (C7_quizzes_validation 1 "v" None [true] ∅ ltac:(discriminate))).
  exists "q1", (JBool true). split; [by left|]. left. reflexivity.
Defined.

(** The claim as stated fails: the keys "-1" and "1.5" are not non-negative
    integers, and a request that carries them is accepted and stored. *)
Lemma C7_counterexample_negative_key_accepted :
  exists resp,
    (saveProgress 1 "v" None
       (bodyOf [true] (Some (JObj [("-1", JBool true); ("1.5", JBool true)]))) ∅).1
      = Success resp
    /\ quizzes (progress resp) !! "-1" = Some true
    /\ quizzes (progress resp) !! "1.5" = Some true.
Proof.
  eexists (mkSaveResponse _ _). split; [reflexivity|].
  split; reflexivity.
Qed.

(** [Number] trims the white space of Unicode too: a key of U+00A0 and "12",
    or of U+FEFF and "3", converts to a number and is accepted, while U+200B,
    which is no white space, makes the key NaN. *)
Example number_trims_unicode_white_space :
  isNaN_Number (String (ascii_of_nat 194) (String (ascii_of_nat 160) "12")) = false
  /\ isNaN_Number
       (String (ascii_of_nat 239)
          (String (ascii_of_nat 187) (String (ascii_of_nat 191) "3"))) = false
  /\ isNaN_Number
       (String (ascii_of_nat 226)
          (String (ascii_of_nat 128) (String (ascii_of_nat 139) "3"))) = true
  /\ validateQuizzes
       (Some (JObj [(String (ascii_of_nat 194) (String (ascii_of_nat 160) "12"),
                     JBool true)])) = true.
Proof. repeat split; reflexivity. Qed.

(** *** C8: the merge is idempotent *)

Lemma readTruthy_mergeQuiz_mono m e k :
  readTruthy m k = true -> readTruthy (mergeQuiz m e) k = true.
Proof.
  unfold mergeQuiz.
  destruct (truthy e.2 && negb (readTruthy m e.1)); [|done].
  unfold readTruthy. destruct (decide (e.1 = k)) as [->|Hne].
  - by rewrite lookup_insert_eq.
  - by rewrite lookup_insert_ne.
Qed.

Lemma readTruthy_mergeQuiz_self m e :
  truthy e.2 = true -> readTruthy (mergeQuiz m e) e.1 = true.
Proof.
  intros Ht. unfold mergeQuiz. rewrite Ht. cbn [andb].
  destruct (readTruthy m e.1) eqn:Hr; cbn [negb]; [done|].
  unfold readTruthy. by rewrite lookup_insert_eq.
Qed.

Lemma readTruthy_foldl_mono es m k :
  readTruthy m k = true -> readTruthy (foldl mergeQuiz m es) k = true.
Proof.
  revert m. induction es as [|e es IH]; intros m Hr; [done|].
  cbn [foldl]. by apply IH, readTruthy_mergeQuiz_mono.
Qed.

Lemma readTruthy_foldl_covers es m e :
  e ∈ es -> truthy e.2 = true -> readTruthy (foldl mergeQuiz m es) e.1 = true.
Proof.
  revert m. induction es as [|e' es IH]; intros m Hin Ht.
  - by apply elem_of_nil in Hin.
  - cbn [foldl]. apply elem_of_cons in Hin as [->|Hin].
    + by apply readTruthy_foldl_mono, readTruthy_mergeQuiz_self.
    + by apply IH.
Qed.

Lemma foldl_mergeQuiz_covered es m :
  (forall e, e ∈ es -> truthy e.2 = true -> readTruthy m e.1 = true) ->
  foldl mergeQuiz m es = m.
Proof.
  induction es as [|e es IH]; intros Hcov; [done|].
  cbn [foldl].
  assert (Hm : mergeQuiz m e = m).
  { unfold mergeQuiz. destruct (truthy e.2) eqn:Ht; [|done].
    rewrite (Hcov e) by (done || by left). done. }
  rewrite Hm. apply IH. intros e' Hin. apply Hcov. by right.
Qed.

Lemma foldl_mergeQuiz_idempotent es m :
  foldl mergeQuiz (foldl mergeQuiz m es) es = foldl mergeQuiz m es.
Proof.
  apply foldl_mergeQuiz_covered. intros e Hin Ht.
  by apply readTruthy_foldl_covers.
Qed.

(** C8: merging a snapshot [x] into the record that holds the result of
    merging [x] into [existing] yields the checkpoints and the quizzes of the
    first merge (whatever the video id, user id and timestamp of the record
    in between). *)
Theorem C8_merge_idempotent existing x videoId userId now :
  let once := mergeProgress existing x in
  mergeProgress
    (Some (mkVideoProgress videoId userId
             (merged_checkpoints once) (merged_quizzes once) now)) x
  = once.
Proof.
  intros once.
  transitivity (mkMerged (merged_checkpoints once) (merged_quizzes once));
    [|by destruct once].
  unfold mergeProgress at 1. cbn [from_option checkpoints quizzes]. f_equal.
  - apply list_eq. intros i. subst once.
    rewrite list_lookup_imap, merged_checkpoints_lookup.
    destruct (incoming_checkpoints x !! i) as [b|]; [|done].
    cbn. f_equal. by destruct (default false _), b.
  - subst once. unfold mergeProgress. cbn [merged_quizzes].
    destruct (incoming_quizzes x) as [qz|]; [|done].
    destruct (truthy qz); [|done].
    apply foldl_mergeQuiz_idempotent.
Qed.

(** *** C9: the default user *)

(** The userId query parameter is absent or empty. *)
Definition omitted (query_userId : option string) : Prop :=
  query_userId = None \/ query_userId = Some "".

Lemma userIdOf_omitted q : omitted q -> userIdOf q = "default_user".
Proof. by intros [-> | ->]. Qed.

(** What a read answers for a stored row. *)
Definition readOf (row : VideoProgress) : ReadResponse :=
  {| read_checkpoints := checkpoints row; read_quizzes := quizzes row;
     read_updated_at := Some (updated_at row); read_message := None |}.

(** C9: with the userId query parameter absent or empty, a read, a save and a
    delete do not fail for want of a user but act on the user id
    'default_user': the read looks up and answers from the record
    (videoId, 'default_user') and succeeds for a video id; the delete removes
    that record and succeeds; the save has the outcome of the save made for
    'default_user', and a request that passes the checks against that record
    succeeds and stores its row, with user id 'default_user', under that key;
    so what one caller who omits userId saves, another caller who omits it
    reads. *)
Theorem C9_default_user now videoId q q' body db :
  omitted q -> omitted q' ->
  getProgress videoId q db = getProgress videoId (Some "default_user") db
  /\ saveProgress now videoId q body db
     = saveProgress now videoId (Some "default_user") body db
  /\ deleteProgress videoId q db
     = (Success tt, delete (videoId, "default_user") db)
  /\ (videoId <> "" ->
      getProgress videoId q db
      = Success (from_option readOf
                   {| read_checkpoints := []; read_quizzes := ∅;
                      read_updated_at := None;
                      read_message := Some "No progress found - starting fresh" |}
                   (db !! (videoId, "default_user"))))
  /\ (forall resp db',
        saveProgress now videoId q body db = (Success resp, db') ->
        db' = <[(videoId, "default_user") := progress resp]> db
        /\ getProgress videoId q' db' = Success (readOf (progress resp)))
  /\ (videoId <> "" ->
      validateCheckpoints (body_checkpoints body) None = true ->
      validateQuizzes (body_quizzes body) = true ->
      from_option (fun row => hasRegression (checkpoints row)
                                (asBooleans (body_checkpoints body)))
        false (db !! (videoId, "default_user")) = false ->
      exists resp,
        saveProgress now videoId q body db
          = (Success resp, <[(videoId, "default_user") := progress resp]> db)
        /\ video_id (progress resp) = videoId
        /\ user_id (progress resp) = "default_user"
        /\ getProgress videoId q'
             (<[(videoId, "default_user") := progress resp]> db)
           = Success (readOf (progress resp))).
Proof.
  intros Hq Hq'.
  assert (Hget : forall p, omitted p ->
            getProgress videoId p db = getProgress videoId (Some "default_user") db).
  { intros p Hp. unfold getProgress. by rewrite (userIdOf_omitted p Hp). }
  assert (Hstored : forall resp db',
        saveProgress now videoId q body db = (Success resp, db') ->
        db' = <[(videoId, "default_user") := progress resp]> db
        /\ getProgress videoId q' db' = Success (readOf (progress resp))).
  { intros resp db' Hsave.
    destruct (saveProgress_success _ _ _ _ _ _ _ Hsave) as (_ & -> & _).
    unfold keyOf. rewrite (userIdOf_omitted q Hq). split; [done|].
    unfold getProgress. rewrite (userIdOf_omitted q' Hq').
    destruct (String.eqb_spec videoId "") as [->|_].
    - unfold saveProgress in Hsave. cbn in Hsave. discriminate.
    - by rewrite lookup_insert_eq. }
  split; [by apply Hget|]. split.
  { unfold saveProgress. by rewrite (userIdOf_omitted q Hq). }
  split.
  { unfold deleteProgress. by rewrite (userIdOf_omitted q Hq). }
  split.
  { intros Hv. unfold getProgress. rewrite (userIdOf_omitted q Hq).
    destruct (String.eqb_spec videoId "") as [?|_]; [done|].
    by destruct (db !! (videoId, "default_user")). }
  split; [exact Hstored|].
  intros Hv Hc Hqz Hreg.
  pose proof (saveProgress_valid now videoId q body db Hv Hc Hqz) as Hsave.
  cbn zeta in Hsave. unfold keyOf in Hsave.
  rewrite (userIdOf_omitted q Hq) in Hsave. rewrite Hreg in Hsave.
  eexists (mkSaveResponse _ _).
  split; [exact Hsave|]. split; [done|]. split; [done|].
  by apply (Hstored _ _ Hsave).
Qed.

Lemma C9_default_user_witness :
  (exists resp,
     saveProgress 1 "v" None (bodyOf [true; false] None) ∅
       = (Success resp, <[("v", "default_user") := progress resp]> ∅)
     /\ video_id (progress resp) = "v"
     /\ user_id (progress resp) = "default_user"
     /\ getProgress "v" (Some "") (<[("v", "default_user") := progress resp]> ∅)
        = Success (readOf (progress resp)))
  /\ getProgress "v" None (sampleDb [true]) = Success (readOf (sampleRow [true]))
  /\ deleteProgress "v" (Some "") (sampleDb [true])
     = (Success tt, delete ("v", "default_user") (sampleDb [true])).
Proof.
  destruct (C9_default_user 1 "v" None (Some "") (bodyOf [true; false] None) ∅
              (or_introl eq_refl) (or_intror eq_refl))
    as (_ & _ & _ & _ & _ & Hsave).
  destruct (C9_default_user 1 "v" None (Some "") (bodyOf [true] None)
              (sampleDb [true]) (or_introl eq_refl) (or_intror eq_refl))
    as (Hget & _ & _ & _ & _).
  destruct (C9_default_user 1 "v" (Some "") None (bodyOf [true] None)
              (sampleDb [true]) (or_intror eq_refl) (or_introl eq_refl))
    as (_ & _ & Hdel & _ & _).
  split; [|split; [|exact Hdel]].
  - apply Hsave; [discriminate | reflexivity | reflexivity | reflexivity].
  - rewrite Hget. reflexivity.
Defined.

(** *** C10: the stored quiz values *)

(** Every value of a quiz map is [true]. *)
Definition allTrue (m : gmap string bool) : Prop :=
  forall key v, m !! key = Some v -> v = true.

Lemma allTrue_mergeQuiz m e : allTrue m -> allTrue (mergeQuiz m e).
Proof.
  intros Hm. unfold mergeQuiz.
  destruct (truthy e.2 && negb (readTruthy m e.1)); [|done].
  intros key v. destruct (decide (e.1 = key)) as [->|Hne].
  - rewrite lookup_insert_eq. congruence.
  - rewrite lookup_insert_ne by done. apply Hm.
Qed.

Lemma allTrue_foldl es m : allTrue m -> allTrue (foldl mergeQuiz m es).
Proof.
  revert m. induction es as [|e es IH]; intros m Hm; [done|].
  cbn [foldl]. by apply IH, allTrue_mergeQuiz.
Qed.

Lemma allTrue_mergeProgress existing incoming :
  from_option (fun row => allTrue (quizzes row)) True existing ->
  allTrue (merged_quizzes (mergeProgress existing incoming)).
Proof.
  intros Hex.
  assert (Hq : allTrue (from_option quizzes ∅ existing)).
  { destruct existing as [row|]; [done|]. cbn [from_option].
    intros key v. by rewrite lookup_empty. }
  unfold mergeProgress. cbn [merged_quizzes].
  destruct (incoming_quizzes incoming) as [qz|]; [|done].
  destruct (truthy qz); [|done]. by apply allTrue_foldl.
Qed.

(** The requests that change the table. *)
Inductive request : Type :=
  | Save (now : Z) (videoId : string) (query_userId : option string) (body : Body)
  | Delete (videoId : string) (query_userId : option string).

Definition handle (db : store) (r : request) : store :=
  match r with
  | Save now videoId q body => (saveProgress now videoId q body db).2
  | Delete videoId q => (deleteProgress videoId q db).2
  end.

(** The table after a sequence of requests. *)
Definition handleAll (rs : list request) (db : store) : store := foldl handle db rs.

Definition quizzesAllTrue (db : store) : Prop :=
  forall key row, db !! key = Some row -> allTrue (quizzes row).

Lemma quizzesAllTrue_handle db r : quizzesAllTrue db -> quizzesAllTrue (handle db r).
Proof.
  intros Hdb. destruct r as [now videoId q body|videoId q]; cbn [handle].
  - destruct (saveProgress now videoId q body db) as [[resp|f] db'] eqn:Hsave; cbn [snd].
    + destruct (saveProgress_success _ _ _ _ _ _ _ Hsave) as (_ & -> & _).
      assert (Hrow : allTrue (quizzes (progress resp))).
      { rewrite (saveProgress_success_row _ _ _ _ _ _ _ Hsave). cbn [quizzes].
        apply allTrue_mergeProgress.
        destruct (db !! keyOf videoId q) as [row|] eqn:Hrow; [|done].
        cbn [from_option]. by apply (Hdb _ _ Hrow). }
      intros key row. destruct (decide (keyOf videoId q = key)) as [<-|Hne].
      * rewrite lookup_insert_eq. by intros [= <-].
      * rewrite lookup_insert_ne by done. apply Hdb.
    + by rewrite (saveProgress_failure_untouched _ _ _ _ _ _ _ Hsave).
  - unfold deleteProgress. cbn [snd]. intros key row Hrow.
    apply lookup_delete_Some in Hrow as [_ Hrow]. by apply (Hdb _ _ Hrow).
Qed.

Lemma quizzesAllTrue_handleAll rs db :
  quizzesAllTrue db -> quizzesAllTrue (handleAll rs db).
Proof.
  unfold handleAll. revert db. induction rs as [|r rs IH]; intros db Hdb; [done|].
  cbn [foldl]. by apply IH, quizzesAllTrue_handle.
Qed.

(** C10: in every record of a table reached from the empty table by saves
    (and deletes), every value of the stored quiz map is [true]. *)
Theorem C10_stored_quizzes_true rs key row k v :
  handleAll rs ∅ !! key = Some row ->
  quizzes row !! k = Some v ->
  v = true.
Proof.
  intros Hrow Hk.
  assert (H : quizzesAllTrue (handleAll rs ∅)).
  { apply quizzesAllTrue_handleAll. intros key' row'. by rewrite lookup_empty. }
  exact (H key row Hrow k v Hk).
Qed.

Definition sampleRequests : list request :=
  [ Save 1 "v" None
      (bodyOf [true; false]
         (Some (JObj [("1", JBool true); ("2", JBool false)])));
    Save 2 "v" None
      (bodyOf [true; true] (Some (JObj [("2", JBool true); ("3", JBool false)]))) ].

Lemma C10_stored_quizzes_true_witness :
  handleAll sampleRequests ∅ !! ("v", "default_user")
    = Some (mkVideoProgress "v" "default_user" [true; true]
              (<["2" := true]> (<["1" := true]> ∅)) 2)
  /\ (<["2" := true]> (<["1" := true]> (∅ : gmap string bool))) !! "2" = Some true
  /\ true = true.
Proof.
  assert (Hrow : handleAll sampleRequests ∅ !! ("v", "default_user")
    = Some (mkVideoProgress "v" "default_user" [true; true]
              (<["2" := true]> (<["1" := true]> ∅)) 2))
    by (reflexivity).
  assert (Hk : (<["2" := true]> (<["1" := true]> (∅ : gmap string bool))) !! "2"
               = Some true) by (reflexivity).
  split; [exact Hrow|]. split; [exact Hk|].
  exact (C10_stored_quizzes_true sampleRequests _ _ "2" true Hrow Hk).
Defined.

End ServerProofs.

(** ** Properties of the playback tracker *)

Module TrackerProofs.
Import JS Tracker.

(** The ready callback stops at the identifier [duratoin], which nothing
    declares. *)
Lemma readyCallback_throws p s :
  readyCallback p s = Throw (ReferenceError "duratoin").
Proof. reflexivity. Qed.

(** The listener stops at its first statement: a video.js player has no
    [currentTIme]. *)
Lemma onTimeUpdate_throws now p s :
  onTimeUpdate now p s = Throw (TypeError "currentTIme").
Proof. reflexivity. Qed.

Lemma handleEvent_unchanged e s : handleEvent e s = (s, []).
Proof.
  destruct e as [p|now p]; cbn [handleEvent].
  - by rewrite readyCallback_throws.
  - by rewrite onTimeUpdate_throws.
Qed.

Lemma play_unchanged events s : play events s = (s, []).
Proof.
  revert s. induction events as [|e events IH]; intros s; [done|].
  cbn [play]. by rewrite handleEvent_unchanged, IH.
Qed.

(** *** C5: the contribution of a sample *)

(** C5, on the code as written: the listener throws a TypeError at
    [player.currentTIme()] for every sample and every state, before
    [prevTime] or [accum] is touched; so a sample contributes nothing to the
    accumulated watch time, forward samples included, not [max(delta, 0)],
    and no entry of [accum] changes over any sequence of events. *)
Theorem C5_sample_contributes_nothing now p s events :
  onTimeUpdate now p s = Throw (TypeError "currentTIme")
  /\ accum (handleEvent (TimeUpdate now p) s).1 = accum s
  /\ prevTime (handleEvent (TimeUpdate now p) s).1 = prevTime s
  /\ accum (play events s).1 = accum s.
Proof.
  split; [apply onTimeUpdate_throws|].
  by rewrite handleEvent_unchanged, play_unchanged.
Qed.

(** A 50-second video: the ready event, then a first sample at 8 seconds,
    played at rate 1.  The claim credits segment 0 with 8 seconds. *)
Example forward_sample_contributes_nothing :
  session [Ready (mkPlayer 0 1 50); TimeUpdate 100000 (mkPlayer 8 1 50)]
  = (mounted, []).
Proof. reflexivity. Qed.

(** *** C6: the completion callback *)

(** A 50-second video played from start to end at rate 1. *)
Definition fullPlayback : list event :=
  [ Ready (mkPlayer 0 1 50);
    TimeUpdate 100000 (mkPlayer 10 1 50); TimeUpdate 110000 (mkPlayer 20 1 50);
    TimeUpdate 120000 (mkPlayer 30 1 50); TimeUpdate 130000 (mkPlayer 40 1 50);
    TimeUpdate 140000 (mkPlayer 50 1 50) ].

(** C6, on the code as written: the completion callback is never invoked,
    in any session: no event sets a checkpoint, so no transition reaches the
    threshold; a video played from start to end invokes it zero times, not
    once. *)
Theorem C6_callback_never_invoked events :
  completions (session events).2 = 0%nat
  /\ completions (session fullPlayback).2 = 0%nat
  /\ checkpoints (session fullPlayback).1 = [].
Proof.
  unfold session. rewrite !play_unchanged. done.
Qed.

End TrackerProofs.

(** ** Further properties of the progress store service *)

Module ServerExtras.
Import JS Server Doubles ServerProofs.

(** *** Validation *)

(** X1: [validateCheckpoints] accepts exactly the arrays whose elements are
    all booleans (the empty array included), of the expected length when one
    is given; an expected length of 0 is ignored, like a missing one. *)
Theorem X1_validateCheckpoints_accepts c expectedLength :
  validateCheckpoints c expectedLength = true <->
  exists cps, c = Some (JArr (JBool <$> cps))
              /\ match expectedLength with
                 | Some (S n) => length cps = S n
                 | _ => True
                 end.
Proof.
  split.
  - intros Hv. exists (asBooleans c).
    assert (Hnone : validateCheckpoints c None = true).
    { destruct c as [[| | | |xs|]|]; try discriminate.
      destruct expectedLength as [[|n]|]; cbn in Hv |- *; try done.
      by destruct (negb _). }
    split; [by apply validateCheckpoints_typed|].
    destruct expectedLength as [[|n]|]; try done.
    destruct c as [[| | | |xs|]|]; try discriminate.
    cbn in Hv |- *. rewrite length_fmap.
    destruct (Nat.eqb_spec (length xs) (S n)); [done|discriminate].
  - intros (cps & -> & Hlen).
    pose proof (validateCheckpoints_bodyOf cps) as Hnone.
    destruct expectedLength as [[|n]|]; try done.
    cbn in Hnone |- *. rewrite length_fmap, Hlen, Nat.eqb_refl. done.
Qed.

(** [null], a boolean or a number. *)
Definition scalarValue (v : value) : bool :=
  match v with
  | JNull | JBool _ | JNum _ => true
  | _ => false
  end.

(** X2: a quizzes field that is [null], a boolean or a number is not rejected:
    the save behaves as if the field were absent. *)
Theorem X2_scalar_quizzes_as_absent now videoId q c v db :
  scalarValue v = true ->
  saveProgress now videoId q (mkBody c (Some v)) db
  = saveProgress now videoId q (mkBody c None) db.
Proof.
  intros Hv. unfold saveProgress. cbn [body_checkpoints body_quizzes].
  assert (Hq : validateQuizzes (Some v) = true).
  { unfold validateQuizzes.
    destruct v; try discriminate; cbn [typeofObject negb]; by rewrite ?orb_true_r. }
  rewrite Hq.
  assert (Hm : forall existing cps,
            mergeProgress existing (mkProgressRequest cps (Some v))
            = mergeProgress existing (mkProgressRequest cps None)).
  { intros existing cps. unfold mergeProgress. cbn [incoming_checkpoints incoming_quizzes].
    destruct v as [|b|x| | |]; try discriminate; cbn [entries foldl]; [done| |].
    - by destruct (truthy (JBool b)).
    - by destruct (truthy (JNum x)). }
  by rewrite Hm.
Qed.

Lemma X2_scalar_quizzes_as_absent_witness :
  saveProgress 1 "v" None (mkBody (Some (JArr [JBool true])) (Some (JNum 7))) ∅
  = saveProgress 1 "v" None (mkBody (Some (JArr [JBool true])) None) ∅.
Proof.
  apply (X2_scalar_quizzes_as_absent 1 "v" None (Some (JArr [JBool true])) (JNum 7) ∅).
  reflexivity.
Defined.

(** *** The outcomes of a save *)

Lemma saveProgress_success_inv now videoId q body db resp db' :
  saveProgress now videoId q body db = (Success resp, db') ->
  videoId <> ""
  /\ validateCheckpoints (body_checkpoints body) None = true
  /\ validateQuizzes (body_quizzes body) = true
  /\ from_option (fun row => hasRegression (checkpoints row)
                               (asBooleans (body_checkpoints body)))
       false (db !! keyOf videoId q) = false.
Proof.
  unfold saveProgress, keyOf.
  destruct (String.eqb_spec videoId "") as [->|Hv]; [done|].
  destruct (validateCheckpoints _ _); [|done].
  destruct (validateQuizzes _); [|done]. cbn [negb].
  destruct (db !! (videoId, userIdOf q)) as [row|]; cbn [from_option]; [|done].
  by destruct (hasRegression _ _).
Qed.

(** The stored record has a true checkpoint that the body lacks. *)
Definition regresses (db : store) (key : string * string) (body : Body) : Prop :=
  exists row i, db !! key = Some row
                /\ checkpoints row !! i = Some true
                /\ default false (asBooleans (body_checkpoints body) !! i) = false.

(** X3: which answer a save gives.  The checks run in a fixed order: the
    video id, the checkpoints, the quizzes, the regression check; the answer
    names the first one that fails, and the save succeeds when none does. *)
Theorem X3_save_outcomes now videoId q body db :
  let answer := (saveProgress now videoId q body db).1 in
  let okC := validateCheckpoints (body_checkpoints body) None in
  let okQ := validateQuizzes (body_quizzes body) in
  (answer = Failure (InvalidInput VideoIdRequired) <-> videoId = "")
  /\ (answer = Failure (InvalidInput InvalidCheckpointsFormat)
      <-> videoId <> "" /\ okC = false)
  /\ (answer = Failure (InvalidInput InvalidQuizzesFormat)
      <-> videoId <> "" /\ okC = true /\ okQ = false)
  /\ (answer = Failure RegressionRejected
      <-> videoId <> "" /\ okC = true /\ okQ = true
          /\ regresses db (keyOf videoId q) body)
  /\ ((exists resp, answer = Success resp)
      <-> videoId <> "" /\ okC = true /\ okQ = true
          /\ ~ regresses db (keyOf videoId q) body).
Proof.
  intros answer okC okQ. subst answer okC okQ.
  assert (Hreg : from_option (fun row => hasRegression (checkpoints row)
                               (asBooleans (body_checkpoints body)))
                   false (db !! keyOf videoId q) = true
                 <-> regresses db (keyOf videoId q) body).
  { unfold regresses. destruct (db !! keyOf videoId q) as [row|]; cbn [from_option].
    - split.
      + intros Hr. destruct (hasRegression _ _) eqn:Hh in Hr; [|done].
        unfold hasRegression in Hh. apply existsb_exists in Hh as (b & Hb & ->).
        apply list_elem_of_In, elem_of_lookup_imap in Hb as (i & old & Heq & Hex).
        symmetry in Heq. apply andb_true_iff in Heq as [-> Hin].
        exists row, i. split; [done|]. split; [done|]. by apply negb_true_iff.
      + intros (row' & i & [= <-] & Hex & Hin). by apply (hasRegression_true _ _ i).
    - split; [done|]. by intros (? & ? & ? & _). }
  destruct (String.eqb_spec videoId "") as [->|Hv]; [cbn; naive_solver|].
  destruct (validateCheckpoints (body_checkpoints body) None) eqn:Hc.
  2:{ unfold saveProgress. destruct (String.eqb_spec videoId ""); [done|].
      rewrite Hc. cbn. naive_solver. }
  destruct (validateQuizzes (body_quizzes body)) eqn:Hq.
  2:{ unfold saveProgress. destruct (String.eqb_spec videoId ""); [done|].
      rewrite Hc, Hq. cbn. naive_solver. }
  rewrite saveProgress_valid by done. cbn zeta.
  destruct (from_option _ false (db !! keyOf videoId q)) eqn:Hr; cbn [fst].
  - assert (Hyes : regresses db (keyOf videoId q) body) by (by apply Hreg).
    naive_solver.
  - assert (Hno : ~ regresses db (keyOf videoId q) body).
    { intros Hyes%Hreg. discriminate. }
    naive_solver.
Qed.

Lemma saveProgress_other_key now videoId q body db key :
  key <> keyOf videoId q ->
  (saveProgress now videoId q body db).2 !! key = db !! key.
Proof.
  intros Hkey.
  destruct (saveProgress now videoId q body db) as [[resp|f] db'] eqn:Hsave; cbn [snd].
  - destruct (saveProgress_success _ _ _ _ _ _ _ Hsave) as (_ & -> & _).
    by rewrite lookup_insert_ne.
  - by rewrite (saveProgress_failure_untouched _ _ _ _ _ _ _ Hsave).
Qed.

(** X4: a save reads and writes one record only: every record under another
    key is left as it was, whatever the answer, and the answer depends on the
    table through the record of the save's own key alone. *)
Theorem X4_save_leaves_other_records now videoId q body db db2 key :
  key <> keyOf videoId q ->
  db2 !! keyOf videoId q = db !! keyOf videoId q ->
  (saveProgress now videoId q body db).2 !! key = db !! key
  /\ (saveProgress now videoId q body db2).1 = (saveProgress now videoId q body db).1.
Proof.
  intros Hkey Hsame. split; [by apply saveProgress_other_key|].
  unfold keyOf in Hsame. unfold saveProgress. rewrite Hsame.
  repeat match goal with
         | |- context [if ?b then _ else _] => destruct b
         end; done.
Qed.

Lemma X4_save_leaves_other_records_witness :
  (saveProgress 1 "w" None (bodyOf [true] None) (sampleDb [true; false])).2
    !! ("v", "default_user")
  = sampleDb [true; false] !! ("v", "default_user")
  /\ (saveProgress 1 "w" None (bodyOf [true] None) ∅).1
     = (saveProgress 1 "w" None (bodyOf [true] None) (sampleDb [true; false])).1.
Proof.
  apply (X4_save_leaves_other_records 1 "w" None (bodyOf [true] None)
           (sampleDb [true; false]) ∅ ("v", "default_user")).
  - discriminate.
  - reflexivity.
Defined.

(** X5: what a successful save stored is what a read of the same video and
    user then answers: the checkpoints, the quizzes and the timestamp of the
    save's response. *)
Theorem X5_save_then_read now videoId q body db resp db' :
  saveProgress now videoId q body db = (Success resp, db') ->
  getProgress videoId q db' = Success (readOf (progress resp))
  /\ updated_at (progress resp) = now.
Proof.
  intros Hsave.
  destruct (saveProgress_success_inv _ _ _ _ _ _ _ Hsave) as (Hv & _).
  destruct (saveProgress_success _ _ _ _ _ _ _ Hsave) as (_ & -> & _ & _ & Hnow).
  split; [|done]. unfold getProgress, keyOf.
  destruct (String.eqb_spec videoId ""); [done|].
  by rewrite lookup_insert_eq.
Qed.

Lemma X5_save_then_read_witness :
  getProgress "v" None (<[keyOf "v" None := progress sampleResponse]> ∅)
  = Success (readOf (progress sampleResponse))
  /\ updated_at (progress sampleResponse) = 1%Z.
Proof.
  apply (X5_save_then_read 1 "v" None (bodyOf [true; true; false] None) ∅
           sampleResponse).
  reflexivity.
Defined.

(** *** Reset *)

(** The answer of a read that finds no record. *)
Definition freshRead : ReadResponse :=
  {| read_checkpoints := []; read_quizzes := ∅; read_updated_at := None;
     read_message := Some "No progress found - starting fresh" |}.

(** X6: a delete always succeeds, removes the one record of its video and
    user and leaves every other record alone; a read that follows answers
    with the empty checkpoint vector and the empty quiz map; deleting again,
    or deleting a record that does not exist, changes nothing. *)
Theorem X6_delete_resets videoId q db :
  let db' := (deleteProgress videoId q db).2 in
  (deleteProgress videoId q db).1 = Success tt
  /\ db' !! keyOf videoId q = None
  /\ (forall key, key <> keyOf videoId q -> db' !! key = db !! key)
  /\ (videoId <> "" -> getProgress videoId q db' = Success freshRead)
  /\ deleteProgress videoId q db' = (Success tt, db')
  /\ (db !! keyOf videoId q = None -> db' = db).
Proof.
  unfold deleteProgress, keyOf. cbn [fst snd].
  split; [done|]. split; [apply lookup_delete_eq|].
  split; [by intros key Hkey; rewrite lookup_delete_ne|].
  split.
  { intros Hv. unfold getProgress. destruct (String.eqb_spec videoId ""); [done|].
    by rewrite lookup_delete_eq. }
  split; [by rewrite delete_delete_eq|].
  apply delete_id.
Qed.

Lemma mergeProgress_first cps qz :
  merged_checkpoints (mergeProgress None (mkProgressRequest cps qz)) = cps.
Proof.
  unfold mergeProgress. cbn [from_option incoming_checkpoints merged_checkpoints].
  apply list_eq. intros i. rewrite list_lookup_imap.
  destruct (cps !! i); [|done]. cbn. by rewrite lookup_nil.
Qed.

(** X7: a save that follows a delete starts afresh: for a valid request it
    succeeds, whatever the record held before the delete, and stores the
    incoming checkpoint vector as it is, stamped with the time of the save. *)
Theorem X7_save_after_delete now videoId q cps qz db :
  videoId <> "" ->
  validateQuizzes qz = true ->
  exists resp,
    (saveProgress now videoId q (bodyOf cps qz) (deleteProgress videoId q db).2).1
      = Success resp
    /\ checkpoints (progress resp) = cps
    /\ updated_at (progress resp) = now
    /\ total_checkpoints (stats resp) = length cps.
Proof.
  intros Hv Hq.
  rewrite saveProgress_valid by (done || apply validateCheckpoints_bodyOf).
  cbn [body_checkpoints body_quizzes bodyOf].
  rewrite asBooleans_bodyOf.
  unfold deleteProgress. cbn [snd]. unfold keyOf.
  rewrite lookup_delete_eq. cbn [from_option fst].
  eexists (mkSaveResponse _ _). split; [reflexivity|].
  cbn [progress checkpoints stats updated_at].
  rewrite mergeProgress_first. done.
Qed.

Lemma X7_save_after_delete_witness :
  exists resp,
    (saveProgress 5 "v" None (bodyOf [false; true] None)
       (deleteProgress "v" None (sampleDb [true; false])).2).1 = Success resp
    /\ checkpoints (progress resp) = [false; true]
    /\ updated_at (progress resp) = 5%Z
    /\ total_checkpoints (stats resp) = length [false; true].
Proof.
  apply (X7_save_after_delete 5 "v" None [false; true] None (sampleDb [true; false]));
    [discriminate | reflexivity].
Defined.

(** *** What a sequence of saves keeps *)

(** [row'] holds everything [row] had achieved: every true checkpoint, every
    quiz key, and every true quiz value. *)
Definition keeps (row row' : VideoProgress) : Prop :=
  (forall i, checkpoints row !! i = Some true -> checkpoints row' !! i = Some true)
  /\ (forall k b, quizzes row !! k = Some b ->
                  exists b', quizzes row' !! k = Some b' /\ (b = true -> b' = true)).

Lemma keeps_refl row : keeps row row.
Proof. split; [done|]. intros k b Hk. by exists b. Qed.

Lemma keeps_trans r1 r2 r3 : keeps r1 r2 -> keeps r2 r3 -> keeps r1 r3.
Proof.
  intros [Hc1 Hq1] [Hc2 Hq2]. split; [by intros i Hi; apply Hc2, Hc1|].
  intros k b Hk. destruct (Hq1 k b Hk) as (b1 & Hk1 & Hb1).
  destruct (Hq2 k b1 Hk1) as (b2 & Hk2 & Hb2). exists b2. split; [done|]. tauto.
Qed.

Lemma mergeQuiz_keeps m e k b :
  m !! k = Some b ->
  exists b', mergeQuiz m e !! k = Some b' /\ (b = true -> b' = true).
Proof.
  intros Hk. unfold mergeQuiz.
  destruct (truthy e.2 && negb (readTruthy m e.1)); [|by exists b].
  destruct (decide (e.1 = k)) as [->|Hne].
  - exists true. by rewrite lookup_insert_eq.
  - exists b. by rewrite lookup_insert_ne.
Qed.

Lemma foldl_mergeQuiz_keeps es m k b :
  m !! k = Some b ->
  exists b', foldl mergeQuiz m es !! k = Some b' /\ (b = true -> b' = true).
Proof.
  revert m b. induction es as [|e es IH]; intros m b Hk; [by exists b|].
  cbn [foldl]. destruct (mergeQuiz_keeps m e k b Hk) as (b1 & Hk1 & Hb1).
  destruct (IH _ _ Hk1) as (b2 & Hk2 & Hb2). exists b2. split; [done|]. tauto.
Qed.

Definition isSave (r : request) : Prop :=
  match r with
  | Save _ _ _ _ => True
  | Delete _ _ => False
  end.

Lemma handle_save_keeps db now videoId q body key row :
  db !! key = Some row ->
  exists row', handle db (Save now videoId q body) !! key = Some row' /\ keeps row row'.
Proof.
  intros Hrow. cbn [handle].
  destruct (decide (key = keyOf videoId q)) as [->|Hne].
  2:{ exists row. rewrite saveProgress_other_key by done. split; [done|apply keeps_refl]. }
  destruct (saveProgress now videoId q body db) as [[resp|f] db'] eqn:Hsave; cbn [snd].
  2:{ rewrite (saveProgress_failure_untouched _ _ _ _ _ _ _ Hsave).
      exists row. split; [done|apply keeps_refl]. }
  destruct (saveProgress_success _ _ _ _ _ _ _ Hsave) as (_ & -> & _).
  exists (progress resp). split; [apply lookup_insert_eq|].
  destruct (saveProgress_success_inv _ _ _ _ _ _ _ Hsave) as (_ & _ & _ & Hreg).
  rewrite (saveProgress_success_row _ _ _ _ _ _ _ Hsave).
  rewrite Hrow in Hreg |- *. cbn [from_option] in Hreg.
  pose proof (proj1 (hasRegression_false _ _) Hreg) as Hkeep. split.
  - intros i Hi. cbn [checkpoints]. rewrite merged_checkpoints_lookup.
    cbn [from_option incoming_checkpoints]. by rewrite (Hkeep i Hi), Hi.
  - intros k b Hk. cbn [quizzes]. unfold mergeProgress.
    cbn [merged_quizzes from_option incoming_quizzes].
    destruct (body_quizzes body) as [qz|]; [|by exists b].
    destruct (truthy qz); [|by exists b]. by apply foldl_mergeQuiz_keeps.
Qed.

(** X8: over any sequence of saves, for any videos and users and whether they
    succeed or fail, a stored record is never removed and never loses what it
    holds: a checkpoint that is true stays true, a quiz key stays present, and
    a quiz that is true stays true. *)
Theorem X8_saves_keep_progress rs db key row :
  Forall isSave rs ->
  db !! key = Some row ->
  exists row', handleAll rs db !! key = Some row' /\ keeps row row'.
Proof.
  unfold handleAll. intros Hrs. revert db row.
  induction Hrs as [|r rs Hr Hrs IH]; intros db row Hrow.
  - exists row. split; [done|apply keeps_refl].
  - cbn [foldl]. destruct r as [now videoId q body|]; [|done].
    destruct (handle_save_keeps db now videoId q body key row Hrow) as (row1 & Hrow1 & Hk1).
    destruct (IH _ _ Hrow1) as (row2 & Hrow2 & Hk2).
    exists row2. split; [done|]. by apply (keeps_trans _ row1).
Qed.

Lemma X8_saves_keep_progress_witness :
  exists row', handleAll sampleRequests (sampleDb [true; false])
                 !! ("v", "default_user") = Some row'
               /\ keeps (sampleRow [true; false]) row'.
Proof.
  apply (X8_saves_keep_progress sampleRequests (sampleDb [true; false])
           ("v", "default_user") (sampleRow [true; false])).
  - repeat constructor.
  - reflexivity.
Defined.

(** *** The merge of the quizzes *)

(** Some entry of [es] gives the key [k] a truthy value. *)
Definition answered (es : list (string * value)) (k : string) : bool :=
  existsb (fun e => String.eqb e.1 k && truthy e.2) es.

Lemma answered_spec es k :
  answered es k = true <-> exists v, (k, v) ∈ es /\ truthy v = true.
Proof.
  unfold answered. rewrite existsb_exists. split.
  - intros ([k' v] & Hin & [Hk Hv]%andb_true_iff).
    apply String.eqb_eq in Hk. cbn in Hk, Hv. subst k'.
    exists v. split; [by apply list_elem_of_In|done].
  - intros (v & Hin & Hv). exists (k, v). split; [by apply list_elem_of_In|].
    cbn. by rewrite String.eqb_refl, Hv.
Qed.

(** The quiz map after the [forEach], key by key. *)
Lemma foldl_mergeQuiz_lookup es m k :
  foldl mergeQuiz m es !! k
  = if answered es k && negb (readTruthy m k) then Some true else m !! k.
Proof.
  revert m. induction es as [|[k' v] es IH]; intros m; [done|].
  cbn [foldl answered existsb fst snd]. rewrite IH. fold (answered es k).
  unfold mergeQuiz. cbn [fst snd].
  destruct (String.eqb_spec k' k) as [->|Hne]; cbn [andb].
  - destruct (truthy v); cbn [andb orb].
    + destruct (readTruthy m k) eqn:Hr; cbn [negb andb].
      * by rewrite Hr, !andb_false_r.
      * rewrite lookup_insert_eq. by destruct (_ && _).
    + done.
  - destruct (truthy v && negb (readTruthy m k')); [|done].
    unfold readTruthy. by rewrite !lookup_insert_ne.
Qed.

(** No key that converts to a number names a property of [Object.prototype]. *)
Lemma numeric_key_not_inherited k :
  isNaN_Number k = false -> k ∉ objectPrototypeKeys.
Proof.
  intros Hk Hin. unfold objectPrototypeKeys in Hin.
  repeat (apply elem_of_cons in Hin as [->|Hin]; [vm_compute in Hk; discriminate|]).
  by apply elem_of_nil in Hin.
Qed.

(** In a quizzes object that [validateQuizzes] accepts, a key is answered
    exactly when the object maps it to [true]. *)
Lemma answered_validated es k :
  validateQuizzes (Some (JObj es)) = true ->
  (answered es k = true <-> (k, JBool true) ∈ es)
  /\ (answered es k = true -> isNaN_Number k = false).
Proof.
  cbn [validateQuizzes truthy typeofObject negb orb entries].
  rewrite forallb_forall. intros Hok. rewrite answered_spec. split.
  - split.
    + intros (v & Hin & Hv).
      specialize (Hok (k, v) (proj1 (list_elem_of_In _ _) Hin)). cbn in Hok.
      apply andb_true_iff in Hok as [_ Hb]. destruct v; try discriminate.
      cbn in Hv. by subst.
    + intros Hin. by exists (JBool true).
  - intros (v & Hin & _).
    specialize (Hok (k, v) (proj1 (list_elem_of_In _ _) Hin)). cbn in Hok.
    apply andb_true_iff in Hok as [Hk _]. by apply negb_true_iff in Hk.
Qed.

(** X9: the quizzes a successful save stores, for a request whose quizzes
    are an object: a key the request maps to [true] is stored as [true], and
    every other key keeps what the record held before (a key the request maps
    to [false] is neither added nor changed). *)
Theorem X9_stored_quizzes now videoId q cps es db resp db' k :
  saveProgress now videoId q (bodyOf cps (Some (JObj es))) db = (Success resp, db') ->
  ((k, JBool true) ∈ es -> quizzes (progress resp) !! k = Some true)
  /\ ((k, JBool true) ∉ es ->
      quizzes (progress resp) !! k
      = from_option quizzes ∅ (db !! keyOf videoId q) !! k).
Proof.
  intros Hsave.
  destruct (saveProgress_success_inv _ _ _ _ _ _ _ Hsave) as (_ & _ & Hq & _).
  cbn [body_quizzes bodyOf] in Hq.
  destruct (answered_validated es k Hq) as [Hans Hnum].
  rewrite (saveProgress_success_row _ _ _ _ _ _ _ Hsave).
  cbn [quizzes body_quizzes bodyOf]. unfold mergeProgress.
  cbn [merged_quizzes incoming_quizzes truthy entries].
  rewrite foldl_mergeQuiz_lookup. split.
  - intros Hin%Hans.
    pose proof (numeric_key_not_inherited k (Hnum Hin)) as Hproto.
    rewrite Hin. cbn [andb]. unfold readTruthy.
    destruct (from_option quizzes ∅ (db !! keyOf videoId q) !! k) as [[|]|]; try done.
    by rewrite bool_decide_eq_false_2.
  - intros Hnot. destruct (answered es k) eqn:Ha; [|done].
    destruct Hnot. by apply Hans.
Qed.

Definition quizResponse : SaveResponse :=
  mkSaveResponse (mkVideoProgress "v" "default_user" [true] (<["2" := true]> ∅) 1)
                 (completionStats [true]).

Lemma X9_stored_quizzes_witness :
  quizzes (progress quizResponse) !! "2" = Some true.
Proof.
  apply (X9_stored_quizzes 1 "v" None [true]
           [("2", JBool true); ("3", JBool false)] ∅ quizResponse
           (<[keyOf "v" None := progress quizResponse]> ∅) "2").
  - reflexivity.
  - by left.
Defined.

(** *** Merges compose *)

(** The record that holds a merge result. *)
Definition rowOf (videoId userId : string) (now : Z) (m : Merged) : VideoProgress :=
  mkVideoProgress videoId userId (merged_checkpoints m) (merged_quizzes m) now.

Lemma merged_quizzes_lookup existing incoming k :
  merged_quizzes (mergeProgress existing incoming) !! k
  = if match incoming_quizzes incoming with
       | Some qz => truthy qz && answered (entries qz) k
       | None => false
       end && negb (readTruthy (from_option quizzes ∅ existing) k)
    then Some true
    else from_option quizzes ∅ existing !! k.
Proof.
  unfold mergeProgress. cbn [merged_quizzes].
  destruct (incoming_quizzes incoming) as [qz|]; [|done].
  destruct (truthy qz); [|done]. apply foldl_mergeQuiz_lookup.
Qed.

(** X10: two snapshots with checkpoint vectors of the same length can be
    merged in either order: merging [a] and then [b] gives the checkpoints
    and quizzes of merging [b] and then [a], and its checkpoints are those of
    one merge of the pointwise OR of the two vectors. *)
Theorem X10_merges_commute existing a b videoId userId now1 now2 qz :
  length (incoming_checkpoints a) = length (incoming_checkpoints b) ->
  let ab := mergeProgress (Some (rowOf videoId userId now1 (mergeProgress existing a))) b in
  let ba := mergeProgress (Some (rowOf videoId userId now2 (mergeProgress existing b))) a in
  ab = ba
  /\ merged_checkpoints ab
     = merged_checkpoints
         (mergeProgress existing
            (mkProgressRequest
               (zip_with orb (incoming_checkpoints a) (incoming_checkpoints b)) qz)).
Proof.
  intros Hlen ab ba.
  assert (Hcps : forall x y now i,
            length (incoming_checkpoints x) = length (incoming_checkpoints y) ->
            merged_checkpoints
              (mergeProgress (Some (rowOf videoId userId now (mergeProgress existing x))) y) !! i
            = zip_with (fun bx by_ =>
                          default false (from_option checkpoints [] existing !! i) || bx || by_)
                (incoming_checkpoints x) (incoming_checkpoints y) !! i).
  { intros x y now i Hxy. rewrite merged_checkpoints_lookup.
    cbn [from_option rowOf checkpoints]. rewrite merged_checkpoints_lookup.
    rewrite lookup_zip_with.
    destruct (incoming_checkpoints x !! i) as [bx|] eqn:Hx;
      destruct (incoming_checkpoints y !! i) as [by_|] eqn:Hy; try done.
    apply lookup_lt_Some in Hy. apply lookup_ge_None in Hx. lia. }
  split.
  - transitivity (mkMerged (merged_checkpoints ab) (merged_quizzes ab));
      [by destruct ab|].
    transitivity (mkMerged (merged_checkpoints ba) (merged_quizzes ba));
      [|by destruct ba].
    f_equal.
    + apply list_eq. intros i. subst ab ba. rewrite !Hcps by done.
      rewrite !lookup_zip_with.
      destruct (incoming_checkpoints a !! i) as [ba_|];
        destruct (incoming_checkpoints b !! i) as [bb|]; try done.
      cbn. f_equal. by destruct (default false _), ba_, bb.
    + apply map_eq. intros k. subst ab ba.
      rewrite !merged_quizzes_lookup. cbn [from_option rowOf quizzes].
      unfold readTruthy. rewrite !merged_quizzes_lookup. unfold readTruthy.
      destruct (match incoming_quizzes a with Some _ => _ | None => _ end);
        destruct (match incoming_quizzes b with Some _ => _ | None => _ end);
        destruct (from_option quizzes ∅ existing !! k) as [[|]|];
        destruct (bool_decide (k ∈ objectPrototypeKeys)); done.
  - apply list_eq. intros i. subst ab. rewrite Hcps by done.
    rewrite merged_checkpoints_lookup. cbn [incoming_checkpoints].
    rewrite !lookup_zip_with.
    destruct (incoming_checkpoints a !! i) as [ba_|];
      destruct (incoming_checkpoints b !! i) as [bb|]; try done.
    cbn. f_equal. by destruct (default false _), ba_, bb.
Qed.

Lemma X10_merges_commute_witness :
  let a := mkProgressRequest [true; false] (Some (JObj [("1", JBool true)])) in
  let b := mkProgressRequest [false; true] (Some (JObj [("2", JBool true)])) in
  mergeProgress (Some (rowOf "v" "u" 1 (mergeProgress None a))) b
  = mergeProgress (Some (rowOf "v" "u" 2 (mergeProgress None b))) a.
Proof.
  intros a b.
  exact (proj1 (X10_merges_commute None a b "v" "u" 1 2 None eq_refl)).
Defined.

(** *** The reported statistics *)

(** X11: how the fields of a stats object relate, for a vector of up to 500
    checkpoints: completed is at most total; the rate is an integer from 0 to
    100; isCompleted makes the rate at least 80, and a rate above 80 makes
    isCompleted true; a non-empty vector with every checkpoint complete has
    rate 100 and is completed; one with none complete has rate 0 and is not. *)
Theorem X11_stats_relations cps :
  (length cps <= checkedLength)%nat ->
  let st := completionStats cps in
  (completed_checkpoints st <= total_checkpoints st)%nat
  /\ exists r,
       completion_rate st = Some r
       /\ (0 <= r <= 100)%Z
       /\ (is_completed st = true -> (80 <= r)%Z)
       /\ ((80 < r)%Z -> is_completed st = true)
       /\ (completed_checkpoints st = total_checkpoints st ->
           (0 < total_checkpoints st)%nat -> r = 100%Z /\ is_completed st = true)
       /\ (completed_checkpoints st = 0%nat -> r = 0%Z /\ is_completed st = false).
Proof.
  intros Hlen st. subst st. rewrite completionStats_counts. cbn zeta.
  cbn [total_checkpoints completed_checkpoints completion_rate is_completed].
  pose proof (count_occ_le_length cps) as Hc. split; [done|].
  pose proof (exactStats_upto _ _ Hc Hlen) as Hex.
  unfold exactStats in Hex. apply andb_true_iff in Hex as [Hb Hr].
  apply Bool.eqb_prop in Hb. rewrite Hb.
  set (c := count_occ Bool.bool_dec cps true) in *.
  destruct (length cps) as [|n] eqn:Ht.
  { exists 0%Z. assert (c = 0%nat) as -> by lia. cbn.
    repeat split; (done || lia). }
  destruct (Math_round _) as [r|]; [|done].
  apply andb_true_iff in Hr as [Hlo%Z.leb_le Hhi%Z.leb_le].
  exists r. split; [done|].
  assert (Hpos : (0 <? Z.of_nat (S n))%Z = true) by (apply Z.ltb_lt; lia).
  rewrite Hpos. cbn [andb].
  split; [split; nia|]. split; [intros H%Z.leb_le; nia|].
  split; [intros H; apply Z.leb_le; nia|]. split.
  - intros -> _. split; [nia|]. apply Z.leb_le. lia.
  - intros ->. split; [nia|]. apply Z.leb_gt. lia.
Qed.

Lemma X11_stats_relations_witness :
  (completed_checkpoints (completionStats [true; true; false])
   <= total_checkpoints (completionStats [true; true; false]))%nat.
Proof.
  apply (X11_stats_relations [true; true; false]).
  apply Nat.leb_le. reflexivity.
Defined.

(** *** The list of a user's videos *)

Definition entryOf (row : VideoProgress) : ProgressEntry :=
  {| entry_video_id := video_id row;
     entry_checkpoints := checkpoints row;
     entry_quizzes := quizzes row;
     entry_updated_at := updated_at row;
     entry_stats := completionStats (checkpoints row) |}.

(** Every record carries the ids of its key. *)
Definition keyed (db : store) : Prop :=
  forall key row, db !! key = Some row -> (video_id row, user_id row) = key.

Lemma keyed_handle db r : keyed db -> keyed (handle db r).
Proof.
  intros Hdb. destruct r as [now videoId q body|videoId q]; cbn [handle].
  - destruct (saveProgress now videoId q body db) as [[resp|f] db'] eqn:Hsave; cbn [snd].
    + destruct (saveProgress_success _ _ _ _ _ _ _ Hsave) as (_ & -> & Hv & Hu & _).
      intros key row. destruct (decide (keyOf videoId q = key)) as [<-|Hne].
      * rewrite lookup_insert_eq. intros [= <-]. by rewrite Hv, Hu.
      * rewrite lookup_insert_ne by done. apply Hdb.
    + by rewrite (saveProgress_failure_untouched _ _ _ _ _ _ _ Hsave).
  - unfold deleteProgress. cbn [snd]. intros key row Hrow.
    apply lookup_delete_Some in Hrow as [_ Hrow]. by apply Hdb.
Qed.

Lemma keyed_handleAll rs db : keyed db -> keyed (handleAll rs db).
Proof.
  unfold handleAll. revert db. induction rs as [|r rs IH]; intros db Hdb; [done|].
  cbn [foldl]. by apply IH, keyed_handle.
Qed.

Lemma selectByUser_elem userId db rows row :
  selectByUser userId db rows ->
  row ∈ rows <-> exists videoId, db !! (videoId, userId) = Some row.
Proof.
  intros [Hperm _]. rewrite Hperm, list_elem_of_fmap. split.
  - intros ([[v u] row'] & -> & [Hu Hin]%list_elem_of_filter).
    cbn in Hu. subst u. exists v. by apply elem_of_map_to_list.
  - intros (v & Hrow). exists ((v, userId), row). split; [done|].
    apply list_elem_of_filter. split; [done|]. by apply elem_of_map_to_list.
Qed.

Lemma selectByUser_NoDup userId db rows :
  keyed db -> selectByUser userId db rows -> NoDup (video_id <$> rows).
Proof.
  intros Hdb [Hperm _]. rewrite Hperm, <- list_fmap_compose.
  apply NoDup_fmap_2_strong; [|apply NoDup_filter, NoDup_map_to_list].
  intros [[v1 u1] r1] [[v2 u2] r2]
    [Hu1 Hin1]%list_elem_of_filter [Hu2 Hin2]%list_elem_of_filter Heq.
  cbn in Hu1, Hu2, Heq. subst u1 u2.
  apply elem_of_map_to_list in Hin1, Hin2.
  pose proof (Hdb _ _ Hin1) as [= Hv1 _]. pose proof (Hdb _ _ Hin2) as [= Hv2 _].
  assert (v1 = v2) as -> by congruence. congruence.
Qed.

(** X12: on a table built by saves and deletes, the list of a user's videos
    has one entry for each record of that user (of 'default_user' for an
    empty user id), no video twice, and each entry shows the record's
    checkpoints, quizzes and timestamp with the statistics of its
    checkpoints. *)
Theorem X12_user_list userId rs response :
  getUserProgress userId (handleAll rs ∅) response ->
  NoDup (entry_video_id <$> response)
  /\ forall e, e ∈ response <->
               exists row, handleAll rs ∅ !! (entry_video_id e, userIdOf (Some userId))
                             = Some row
                           /\ e = entryOf row.
Proof.
  intros (rows & Hsel & ->).
  assert (Hkeyed : keyed (handleAll rs ∅)).
  { apply keyed_handleAll. intros key row. by rewrite lookup_empty. }
  change (progressList rows) with (entryOf <$> rows). split.
  - rewrite <- list_fmap_compose.
    by apply (selectByUser_NoDup _ _ _ Hkeyed Hsel).
  - intros e. rewrite list_elem_of_fmap. split.
    + intros (row & -> & Hin). exists row. split; [|done].
      apply (selectByUser_elem _ _ _ _ Hsel) in Hin as (v & Hrow).
      pose proof (Hkeyed _ _ Hrow) as [= Hv _]. cbn [entryOf entry_video_id].
      by rewrite Hv.
    + intros (row & Hrow & ->). exists row. split; [done|].
      apply (selectByUser_elem _ _ _ _ Hsel). by eexists.
Qed.

Lemma X12_user_list_witness :
  NoDup (entry_video_id
           <$> progressList [mkVideoProgress "v" "default_user" [true; true]
                               (<["2" := true]> (<["1" := true]> ∅)) 2]).
Proof.
  apply (X12_user_list "" sampleRequests
           (progressList [mkVideoProgress "v" "default_user" [true; true]
                            (<["2" := true]> (<["1" := true]> ∅)) 2])).
  eexists. split; [|reflexivity]. split.
  - reflexivity.
  - repeat constructor.
Defined.

Lemma userIdOf_idem q : userIdOf (Some (userIdOf q)) = userIdOf q.
Proof.
  destruct q as [u|]; [|done]. cbn.
  destruct (String.eqb_spec u "") as [->|Hne]; [done|].
  cbn. by destruct (String.eqb_spec u "").
Qed.

(** X13: after a successful save, the list of that user's videos shows the
    video with the checkpoints, quizzes and timestamp just stored and the
    statistics the save answered with; it is the first entry when every other
    record of the user was updated before the save. *)
Theorem X13_saved_video_listed now videoId q body db resp db' response :
  saveProgress now videoId q body db = (Success resp, db') ->
  getUserProgress (userIdOf q) db' response ->
  let entry :=
    {| entry_video_id := videoId;
       entry_checkpoints := checkpoints (progress resp);
       entry_quizzes := quizzes (progress resp);
       entry_updated_at := now;
       entry_stats := stats resp |} in
  entry ∈ response
  /\ ((forall v row, v <> videoId -> db !! (v, userIdOf q) = Some row ->
                     (updated_at row < now)%Z) ->
      head response = Some entry).
Proof.
  intros Hsave (rows & Hsel & ->) entry. rewrite userIdOf_idem in Hsel.
  destruct (saveProgress_success _ _ _ _ _ _ _ Hsave) as (Hst & -> & Hv & _ & Hnow).
  assert (Hentry : entry = entryOf (progress resp)).
  { subst entry. unfold entryOf. by rewrite Hv, Hnow, Hst. }
  assert (Hin : progress resp ∈ rows).
  { apply (selectByUser_elem _ _ _ _ Hsel). exists videoId. apply lookup_insert_eq. }
  change (progressList rows) with (entryOf <$> rows). rewrite Hentry.
  split; [apply list_elem_of_fmap; by eexists|].
  intros Holder. destruct rows as [|h t]; [by apply elem_of_nil in Hin|].
  cbn. f_equal. f_equal.
  assert (Hh : h ∈ h :: t) by left.
  apply (selectByUser_elem _ _ _ _ Hsel) in Hh as (v & Hh).
  destruct (decide (v = videoId)) as [->|Hne].
  { unfold keyOf in Hh. rewrite lookup_insert_eq in Hh. congruence. }
  unfold keyOf in Hh. rewrite lookup_insert_ne in Hh by congruence.
  specialize (Holder v h Hne Hh).
  apply elem_of_cons in Hin as [->|Hin]; [done|].
  destruct Hsel as [_ Hsorted]. apply StronglySorted_inv in Hsorted as [_ Hall].
  rewrite List.Forall_forall in Hall.
  specialize (Hall _ (proj1 (list_elem_of_In _ _) Hin)). cbn in Hall. lia.
Qed.

Lemma X13_saved_video_listed_witness :
  head (progressList [progress sampleResponse])
  = Some {| entry_video_id := "v";
            entry_checkpoints := checkpoints (progress sampleResponse);
            entry_quizzes := quizzes (progress sampleResponse);
            entry_updated_at := 1;
            entry_stats := stats sampleResponse |}.
Proof.
  apply (X13_saved_video_listed 1 "v" None (bodyOf [true; true; false] None) ∅
           sampleResponse (<[keyOf "v" None := progress sampleResponse]> ∅)
           (progressList [progress sampleResponse])).
  - reflexivity.
  - exists [progress sampleResponse]. split; [|done]. split.
    + reflexivity.
    + repeat constructor.
  - intros v row _ Hrow. by rewrite lookup_empty in Hrow.
Defined.

End ServerExtras.

(** ** Further properties of the playback tracker *)

Module TrackerExtras.
Import JS Tracker TrackerProofs.

(** X14: the ready callback never sets the checkpoints: whatever duration the
    player reports, it throws a ReferenceError at [duratoin] before
    [setCheckpoints]; so through every session the checkpoint vector is the
    empty one of the mounting, and the listener has no segment to credit. *)
Theorem X14_ready_never_sets_checkpoints p s events :
  readyCallback p s = Throw (ReferenceError "duratoin")
  /\ (handleEvent (Ready p) s).1 = s
  /\ checkpoints (session events).1 = []
  /\ accum (session events).1 = [].
Proof.
  split; [apply readyCallback_throws|].
  unfold session. by rewrite handleEvent_unchanged, play_unchanged.
Qed.

(** X16: a session never posts its progress: for every sequence of ready and
    timeupdate events the component sends no save, so the service's table
    after the session is the table before it. *)
Theorem X16_session_never_posts events videoId times db :
  Session.posted (session events).2 = []
  /\ Session.deliver videoId (zip times (Session.posted (session events).2)) db
     = ([], db).
Proof.
  unfold session. rewrite play_unchanged. cbn [snd Session.posted omap].
  split; [done|]. by destruct times.
Qed.

End TrackerExtras.

(** ** A client against the service: properties *)

Module SessionExtras.
Import JS Doubles ServerProofs Session.

(** [a] and [b] have the same length and [b] is true wherever [a] is. *)
Definition below (a b : list bool) : Prop :=
  length a = length b /\ forall i, a !! i = Some true -> b !! i = Some true.

Lemma below_refl a : below a a.
Proof. by split. Qed.

Lemma below_trans a b c : below a b -> below b c -> below a c.
Proof. intros [Hl1 H1] [Hl2 H2]. split; [congruence|]. intros i Hi. by apply H2, H1. Qed.

(** Each vector of [vs] is below the next, the first one above [a]. *)
Fixpoint rising (a : list bool) (vs : list (list bool)) : Prop :=
  match vs with
  | [] => True
  | v :: vs' => below a v /\ rising v vs'
  end.

Lemma rising_below a b vs : below a b -> rising b vs -> rising a vs.
Proof.
  destruct vs as [|v vs]; [done|]. intros Hab [Hbv Hvs].
  split; [by apply (below_trans _ b)|done].
Qed.

(** The service accepts a vector that is above the stored one, and stores it. *)
Lemma postProgress_accepted now videoId v db :
  videoId <> "" ->
  (forall row, db !! (videoId, "default_user") = Some row ->
               below (Server.checkpoints row) v) ->
  exists resp,
    postProgress now videoId v db
      = (Server.Success resp, <[(videoId, "default_user") := Server.progress resp]> db)
    /\ Server.checkpoints (Server.progress resp) = v.
Proof.
  intros Hv Hbelow. unfold postProgress.
  rewrite saveProgress_valid by (done || apply validateCheckpoints_bodyOf).
  cbn [Server.body_checkpoints Server.body_quizzes]. rewrite asBooleans_bodyOf.
  change (keyOf videoId None) with (videoId, "default_user").
  assert (Hreg : from_option (fun row => Server.hasRegression (Server.checkpoints row) v)
                   false (db !! (videoId, "default_user")) = false).
  { destruct (db !! (videoId, "default_user")) as [row|] eqn:Hrow; [|done].
    cbn [from_option]. apply hasRegression_false. by apply Hbelow. }
  rewrite Hreg. eexists (Server.mkSaveResponse _ _). split; [reflexivity|].
  cbn [Server.progress Server.checkpoints].
  apply list_eq. intros i. rewrite merged_checkpoints_lookup.
  cbn [Server.incoming_checkpoints].
  destruct (v !! i) as [b|] eqn:Hb; [|done]. cbn. f_equal.
  destruct (db !! (videoId, "default_user")) as [row|] eqn:Hrow;
    cbn [from_option]; [|by rewrite lookup_nil].
  destruct (Server.checkpoints row !! i) as [[|]|] eqn:Hi; try done.
  destruct (Hbelow row eq_refl) as [_ Hmono]. rewrite (Hmono i Hi) in Hb.
  by injection Hb as <-.
Qed.

(** The answer is a success. *)
Definition accepted (answer : Server.outcome Server.SaveResponse) : Prop :=
  exists resp, answer = Server.Success resp.

Lemma deliver_rising videoId a vs : forall times db,
  videoId <> "" ->
  (forall row, db !! (videoId, "default_user") = Some row ->
               below (Server.checkpoints row) a) ->
  rising a vs ->
  length times = length vs ->
  Forall accepted (deliver videoId (zip times vs) db).1
  /\ length (deliver videoId (zip times vs) db).1 = length vs
  /\ (forall key, key <> (videoId, "default_user") ->
                  (deliver videoId (zip times vs) db).2 !! key = db !! key)
  /\ match last vs with
     | Some v => Server.checkpoints
                   <$> (deliver videoId (zip times vs) db).2 !! (videoId, "default_user")
                 = Some v
     | None => (deliver videoId (zip times vs) db).2 = db
     end.
Proof.
  revert a. induction vs as [|v vs IH]; intros a times db Hv Hdb Hrise Hlen.
  { destruct times; [|done]. cbn. done. }
  destruct times as [|now times]; [done|]. destruct Hrise as [Hav Hrise].
  cbn [zip zip_with deliver].
  destruct (postProgress_accepted now videoId v db Hv) as (resp & Hpost & Hcps).
  { intros row Hrow. by apply (below_trans _ a), Hav; apply Hdb. }
  rewrite Hpost.
  destruct (IH v times (<[(videoId, "default_user") := Server.progress resp]> db) Hv)
    as (Hall & Hn & Hother & Hlast).
  { intros row. rewrite lookup_insert_eq. intros [= <-]. rewrite Hcps. apply below_refl. }
  { done. }
  { cbn in Hlen. lia. }
  change (zip_with pair times vs) with (zip times vs).
  destruct (deliver videoId (zip times vs) _) as [answers db2].
  cbn [fst snd] in *. split; [constructor; [by eexists|done]|].
  split; [cbn; by rewrite Hn|]. split.
  { intros key Hkey. rewrite Hother by done. by rewrite lookup_insert_ne. }
  rewrite last_cons. destruct (last vs) as [w|]; [done|].
  subst db2. rewrite lookup_insert_eq. cbn. by rewrite Hcps.
Qed.

(** The vectors are of one length and each is true wherever the one before
    it is. *)
Definition growing (vs : list (list bool)) : Prop :=
  match vs with
  | [] => True
  | v :: rest => rising v rest
  end.

(** X18: a client that posts, the way the component's [saveProgress] does (no
    userId, no quizzes), a growing sequence of checkpoint vectors for a video
    with no stored record never has a save rejected: the service accepts
    each post, touches no other record, and ends up storing the last vector
    posted. *)
Theorem X18_growing_posts_accepted videoId vs times db :
  videoId <> "" ->
  db !! (videoId, "default_user") = None ->
  growing vs ->
  length times = length vs ->
  let answers := (deliver videoId (zip times vs) db).1 in
  let db' := (deliver videoId (zip times vs) db).2 in
  Forall accepted answers
  /\ length answers = length vs
  /\ (forall key, key <> (videoId, "default_user") -> db' !! key = db !! key)
  /\ Server.checkpoints <$> db' !! (videoId, "default_user") = last vs.
Proof.
  intros Hv Hnone Hgrow Hlen answers db'. subst answers db'.
  destruct vs as [|v rest].
  { destruct times; [|done]. cbn. by rewrite Hnone. }
  destruct (deliver_rising videoId v (v :: rest) times db Hv)
    as (Hall & Hn & Hother & Hlast).
  { intros row Hrow. congruence. }
  { split; [apply below_refl|done]. }
  { done. }
  split; [done|]. split; [done|]. split; [done|].
  destruct (last (v :: rest)) as [w|] eqn:Hw; [done|].
  by rewrite last_cons in Hw; destruct (last rest).
Qed.

Lemma X18_growing_posts_accepted_witness :
  Forall accepted
    (deliver "v" (zip [7%Z; 9%Z] [[true; false]; [true; true]]) ∅).1
  /\ Server.checkpoints
       <$> (deliver "v" (zip [7%Z; 9%Z] [[true; false]; [true; true]]) ∅).2
           !! ("v", "default_user")
     = Some [true; true].
Proof.
  destruct (X18_growing_posts_accepted "v" [[true; false]; [true; true]] [7%Z; 9%Z] ∅)
    as (Hall & _ & _ & Hlast); [discriminate | reflexivity | | reflexivity |].
  - split; [|done]. split; [done|]. by intros [|[|i]] Hi.
  - split; [exact Hall|]. exact Hlast.
Defined.

(** X19: the component and the service agree on completion: for every
    checkpoint vector, the test that makes the component call the completion
    callback is true exactly when the service reports isCompleted for that
    vector (both are false for the empty vector). *)
Theorem X19_completion_agrees (v : list bool) :
  Tracker.thresholdReached v = Server.is_completed (Server.completionStats v).
Proof.
  unfold Tracker.thresholdReached, Server.completionStats, Tracker.COMPLETION_THRESHOLD.
  cbn [Server.is_completed].
  destruct v as [|b v]; [reflexivity|].
  assert (Hpos : (0 <? length (b :: v))%nat = true) by done.
  by rewrite Hpos.
Qed.

End SessionExtras.
